(** * WareCost: query cost attribution, anomaly detection and budget alerts

    A shallow embedding of [warecost.py] (the record normaliser and the
    cost engine) and of the request handlers of [api.py], followed by the
    properties of the specification that were checked against them.

    Modelling conventions.
    - A Python [str] is a [string]; each character is a code point below 256.
    - A Python [float] is a rational of [Q]: arithmetic is exact, so binary
      rounding error is outside the model.  [round(x, n)] rounds to the
      nearest multiple of [10^-n], ties to even, as Python does on the exact
      value it is given.
    - A Python [int] is a [Z].
    - A [dict] whose iteration order is observable is an association list in
      insertion order, with unique keys.
    - The engine's methods run in a state-and-exception monad over the
      engine's fields.
    - [statistics.mean] and [statistics.stdev] are library functions that
      may raise (they do on data that is not finite); the engine is
      parameterised by them. *)

From Stdlib Require Import List String Ascii Bool Arith ZArith QArith Qround.
From Stdlib Require Import Lia Lqa Permutation Sorted Setoid Morphisms.
Import ListNotations.

Open Scope string_scope.

(** ** Python built-ins used by the source *)

Module Py.

(** *** Strings *)

(** [sub in s] *)
Fixpoint contains (sub s : string) : bool :=
  prefix sub s
  || match s with
     | EmptyString => false
     | String _ s' => contains sub s'
     end.

Fixpoint drop (n : nat) (s : string) : string :=
  match n, s with
  | S k, String _ s' => drop k s'
  | _, _ => s
  end.

(** [s.split(sep)] for a non-empty separator: the scan goes left to right,
    [skip] counts the characters of a separator just matched that are still to
    be passed over, [cur] is the piece being accumulated. *)
Fixpoint split_from (sep : string) (skip : nat) (cur s : string) : list string :=
  match s with
  | EmptyString => [cur]
  | String c s' =>
      match skip with
      | S k => split_from sep k cur s'
      | O =>
          if prefix sep s
          then cur :: split_from sep (pred (String.length sep)) "" s'
          else split_from sep 0 (cur ++ String c "") s'
      end
  end.

Definition split (sep s : string) : list string := split_from sep 0 "" s.

(** [l[i]] on a list of strings; [None] stands for [IndexError]. *)
Definition item (l : list string) (i : nat) : option string := nth_error l i.

(** [str.isspace] on one character (code points below 256). *)
Definition is_space (c : ascii) : bool :=
  let n := nat_of_ascii c in
  ((9 <=? n)%nat && (n <=? 13)%nat) || ((28 <=? n)%nat && (n <=? 32)%nat)
  || (n =? 133)%nat || (n =? 160)%nat.

Fixpoint lstrip (s : string) : string :=
  match s with
  | EmptyString => ""
  | String c s' => if is_space c then lstrip s' else s
  end.

Fixpoint rstrip (s : string) : string :=
  match s with
  | EmptyString => ""
  | String c s' =>
      match rstrip s' with
      | EmptyString => if is_space c then "" else String c ""
      | r => String c r
      end
  end.

(** [s.strip()] *)
Definition strip (s : string) : string := rstrip (lstrip s).

(** Truth value of a string: the empty string is falsy. *)
Definition truthy (s : string) : bool :=
  match s with EmptyString => false | _ => true end.

(** Truth value of an [Optional[str]]: [None] and [""] are falsy. *)
Definition truthy_opt (o : option string) : bool :=
  match o with Some s => truthy s | None => false end.

(** *** Numbers *)

Local Open Scope Q_scope.

Definition Qltb (x y : Q) : bool := negb (Qle_bool y x).

Fixpoint pow10 (n : nat) : positive :=
  match n with
  | O => 1%positive
  | S k => (10 * pow10 k)%positive
  end.

(** Nearest integer, ties to the even one. *)
Definition round_half_even (x : Q) : Z :=
  let f := Qfloor x in
  match Qcompare (x - inject_Z f) (1 # 2) with
  | Lt => f
  | Gt => (f + 1)%Z
  | Eq => if Z.even f then f else (f + 1)%Z
  end.

(** [round(x, ndigits)] *)
Definition round (x : Q) (ndigits : nat) : Q :=
  Qmake (round_half_even (x * inject_Z (Zpos (pow10 ndigits)))) (pow10 ndigits).

(** [sum(xs)]: a left fold from [0]. *)
Definition sum (xs : list Q) : Q := fold_left Qplus xs 0.

Definition sumZ (xs : list Z) : Z := fold_left Z.add xs 0%Z.

(** *** [sorted(xs, key=...)]

    Python's sort is stable and ascending in the key.  The stable sorted
    arrangement of a list is unique, so it is given here by insertion: going
    through the list from its end, each element is put in front of the first
    element whose key is not smaller than its own. *)
Section Sorted.

Context {A : Type} (key : A -> Q).

Fixpoint insert (x : A) (l : list A) : list A :=
  match l with
  | [] => [x]
  | y :: l' => if Qltb (key y) (key x) then y :: insert x l' else x :: l
  end.

Definition sorted (l : list A) : list A := fold_right insert [] l.


End Sorted.

(** *** The [statistics] module on finite data

    What [statistics.mean] and [statistics.stdev] are documented to return
    on finite data: they work on the exact values of their data, and only
    the final square root is approximate, so it is left as a parameter
    [sqrt].  Both raise [StatisticsError] on too few data points ([None]
    here).  The engine below does not depend on these definitions: it takes
    the two library functions as parameters, which may raise. *)
Definition mean (xs : list Q) : option Q :=
  match xs with
  | [] => None
  | _ => Some (sum xs / inject_Z (Z.of_nat (List.length xs)))
  end.

(** Sample variance: squared deviations from the mean over [n - 1]. *)
Definition variance (xs : list Q) : option Q :=
  match mean xs with
  | Some m =>
      if (List.length xs <? 2)%nat then None
      else Some (sum (map (fun x => (x - m) * (x - m)) xs)
                 / inject_Z (Z.of_nat (List.length xs - 1)))
  | None => None
  end.

Definition stdev (sqrt : Q -> Q) (xs : list Q) : option Q :=
  option_map sqrt (variance xs).

End Py.

(** ** [warecost.py] *)

Module Warecost.

Local Open Scope Q_scope.

(** *** The record normaliser *)

Record QueryRecord : Type := {
  query_id : string;
  query_text : string;
  user_name : string;
  warehouse_name : string;
  credits_used : Q;
  bytes_scanned : Z;
  execution_time_ms : Z;
  start_time : string;
  query_tag : string
}.

(** [QueryRecord._extract].  The two subscripts are written with a default
    that is never reached: [split] always returns at least one piece, and at
    least two when the separator occurs (lemmas [split_item0] and
    [split_item1] below). *)
Definition _extract (self : QueryRecord) (prefix : string) : option string :=
  if Py.contains prefix (query_tag self)
  then Some (Py.strip (nth 0 (Py.split ";" (nth 1 (Py.split prefix (query_tag self)) "")) ""))
  else None.

(** [QueryRecord.team]: [a or b] yields [b] when [a] is [None] or empty. *)
Definition team (self : QueryRecord) : string :=
  let fallback :=
    if Py.contains "_" (user_name self)
    then nth 0 (Py.split "_" (user_name self)) ""
    else "unattributed" in
  match _extract self "team=" with
  | Some v => if Py.truthy v then v else fallback
  | None => fallback
  end.

(** [QueryRecord.dbt_model] *)
Definition dbt_model (self : QueryRecord) : option string :=
  let v := _extract self "dbt:" in
  if Py.truthy_opt v then v else _extract self "model=".

(** [QueryRecord.dag_id] *)
Definition dag_id (self : QueryRecord) : option string := _extract self "dag=".

(** [QueryRecord.cost_usd] *)
Definition cost_usd (self : QueryRecord) : Q := Py.round (credits_used self * 3) 4.

(** *** Raw records

    A raw record is a mapping from field names to values.  It is represented
    by what it binds each of the nine known names to, if anything, and by the
    list of the other names it carries.  Values of a known name have the
    type the dataclass annotates; the dataclass does not check it, and
    ill-typed values are outside the model. *)
Record raw_record : Type := {
  raw_query_id : option string;
  raw_query_text : option string;
  raw_user_name : option string;
  raw_warehouse_name : option string;
  raw_credits_used : option Q;
  raw_bytes_scanned : option Z;
  raw_execution_time_ms : option Z;
  raw_start_time : option string;
  raw_query_tag : option string;
  raw_other : list string
}.

Inductive exn : Type :=
| TypeError (msg : string)
| StatisticsError (msg : string)
| AttributeError (msg : string).

Definition required {A : Type} (name : string) (v : option A) : exn + A :=
  match v with
  | Some a => inr a
  | None => inl (TypeError ("missing required argument: " ++ name))
  end.

Definition and_then {E A B : Type} (m : E + A) (f : A -> E + B) : E + B :=
  match m with
  | inl e => inl e
  | inr a => f a
  end.

(** The record constructor applied to a raw mapping unpacked into keyword
    arguments, as [load] does: the generated constructor raises [TypeError] on a
    name it does not know and on a missing field without default;
    [query_tag] defaults to the empty string. *)
Definition QueryRecord_init (r : raw_record) : exn + QueryRecord :=
  match raw_other r with
  | name :: _ => inl (TypeError ("unexpected keyword argument: " ++ name))
  | [] =>
      and_then (required "query_id" (raw_query_id r)) (fun qid =>
      and_then (required "query_text" (raw_query_text r)) (fun qtext =>
      and_then (required "user_name" (raw_user_name r)) (fun user =>
      and_then (required "warehouse_name" (raw_warehouse_name r)) (fun wh =>
      and_then (required "credits_used" (raw_credits_used r)) (fun credits =>
      and_then (required "bytes_scanned" (raw_bytes_scanned r)) (fun bytes =>
      and_then (required "execution_time_ms" (raw_execution_time_ms r)) (fun ms =>
      and_then (required "start_time" (raw_start_time r)) (fun start =>
      inr {| query_id := qid; query_text := qtext; user_name := user;
             warehouse_name := wh; credits_used := credits;
             bytes_scanned := bytes; execution_time_ms := ms;
             start_time := start;
             query_tag := match raw_query_tag r with
                          | Some tag => tag
                          | None => ""
                          end |}))))))))
  end.

(** The list comprehension of [load], one constructor call per raw record:
    the first failing record aborts it. *)
Fixpoint build_records (records : list raw_record) : exn + list QueryRecord :=
  match records with
  | [] => inr []
  | r :: rest =>
      and_then (QueryRecord_init r) (fun q =>
      and_then (build_records rest) (fun qs => inr (q :: qs)))
  end.

(** *** The cost engine *)

Record CostEngine : Type := {
  credit_price : Q;
  queries : list QueryRecord;
  budgets : list (string * Q)
}.

(** [CostEngine.__init__] *)
Definition default_credit_price : Q := 3.

Definition CostEngine_init (price : Q) : CostEngine :=
  {| credit_price := price; queries := []; budgets := [] |}.

(** A method takes the engine, returns a value or raises, and leaves an
    engine behind. *)
Definition M (A : Type) : Type := CostEngine -> (exn + A) * CostEngine.

Definition ret {A : Type} (a : A) : M A := fun self => (inr a, self).

Definition bind {A B : Type} (m : M A) (f : A -> M B) : M B :=
  fun self =>
    match m self with
    | (inl e, self') => (inl e, self')
    | (inr a, self') => f a self'
    end.

Definition get : M CostEngine := fun self => (inr self, self).

Definition put (self' : CostEngine) : M unit := fun _ => (inr tt, self').

(** Evaluating an expression that may raise: the engine is not touched. *)
Definition eval {A : Type} (v : exn + A) : M A := fun self => (v, self).

Notation "x <- m ;; k" := (bind m (fun x => k))
  (at level 61, m at next level, right associativity).
Notation "m ;;; k" := (bind m (fun _ => k))
  (at level 61, right associativity).

Definition value {A : Type} (r : (exn + A) * CostEngine) : exn + A := fst r.
Definition engine_after {A : Type} (r : (exn + A) * CostEngine) : CostEngine := snd r.

(** [CostEngine.load]: the comprehension is evaluated first, the attribute
    is assigned afterwards. *)
Definition load (records : list raw_record) : M nat :=
  qs <- eval (build_records records) ;;
  self <- get ;;
  put {| credit_price := credit_price self; queries := qs; budgets := budgets self |} ;;;
  ret (List.length qs).

(** [d[k] = v] on an insertion-ordered dict: an existing key keeps its
    place, a new key goes last. *)
Fixpoint dict_set {V : Type} (d : list (string * V)) (k : string) (v : V) : list (string * V) :=
  match d with
  | [] => [(k, v)]
  | (k', v') :: d' => if String.eqb k' k then (k, v) :: d' else (k', v') :: dict_set d' k v
  end.

(** [d.get(k)] *)
Fixpoint dict_get {V : Type} (d : list (string * V)) (k : string) : option V :=
  match d with
  | [] => None
  | (k', v') :: d' => if String.eqb k' k then Some v' else dict_get d' k
  end.

(** [CostEngine.set_budget] *)
Definition set_budget (team_name : string) (amount : Q) : M unit :=
  self <- get ;;
  put {| credit_price := credit_price self; queries := queries self;
         budgets := dict_set (budgets self) team_name amount |}.

(** [getattr(q, dim, None)] on the nine names whose value is a string or
    [None], and on names that are no attribute of the record, which give
    [None].  The numeric fields, the methods and the special attributes of
    the record are not modelled (their values are not strings, and no
    caller in the repository asks for them): what is proved about grouping
    below is stated for the nine names only. *)
Definition getattr (q : QueryRecord) (dim : string) : option string :=
  if String.eqb dim "team" then Some (team q)
  else if String.eqb dim "warehouse_name" then Some (warehouse_name q)
  else if String.eqb dim "dbt_model" then dbt_model q
  else if String.eqb dim "dag_id" then dag_id q
  else if String.eqb dim "user_name" then Some (user_name q)
  else if String.eqb dim "query_id" then Some (query_id q)
  else if String.eqb dim "query_text" then Some (query_text q)
  else if String.eqb dim "start_time" then Some (start_time q)
  else if String.eqb dim "query_tag" then Some (query_tag q)
  else None.

(** [getattr(q, dim, None) or "unattributed"] *)
Definition group_key (dim : string) (q : QueryRecord) : string :=
  let v := getattr q dim in
  if Py.truthy_opt v then match v with Some s => s | None => "unattributed" end
  else "unattributed".

(** [groups.setdefault(key, []).append(q)] *)
Fixpoint setdefault_append (groups : list (string * list QueryRecord))
    (key : string) (q : QueryRecord) : list (string * list QueryRecord) :=
  match groups with
  | [] => [(key, [q])]
  | (k, qs) :: rest =>
      if String.eqb k key then (k, (qs ++ [q])%list) :: rest
      else (k, qs) :: setdefault_append rest key q
  end.

(** The first loop of [breakdown]. *)
Definition group_queries (dim : string) (qs : list QueryRecord)
    : list (string * list QueryRecord) :=
  fold_left (fun groups q => setdefault_append groups (group_key dim q) q) qs [].

Definition total_credits (qs : list QueryRecord) : Q :=
  Py.sum (map credits_used qs).

Record breakdown_row : Type := {
  row_queries : nat;
  row_credits : Q;
  row_cost_usd : Q;
  row_bytes : Z
}.

Definition make_row (price : Q) (qs : list QueryRecord) : breakdown_row :=
  let tc := total_credits qs in
  {| row_queries := List.length qs;
     row_credits := Py.round tc 4;
     row_cost_usd := Py.round (tc * price) 2;
     row_bytes := Py.sumZ (map bytes_scanned qs) |}.

(** [CostEngine.breakdown]: the groups are visited by ascending
    [-sum(credits)], and the result dict keeps that order. *)
Definition breakdown (dim : string) : M (list (string * breakdown_row)) :=
  self <- get ;;
  let groups := group_queries dim (queries self) in
  ret (map (fun kqs => (fst kqs, make_row (credit_price self) (snd kqs)))
           (Py.sorted (fun x => - total_credits (snd x)) groups)).

Record anomaly : Type := {
  an_query_id : string;
  an_cost_usd : Q;
  an_z_score : Q;
  an_team : string;
  an_warehouse : string
}.

Definition z_of (mu sd : Q) (q : QueryRecord) : Q := (cost_usd q - mu) / sd.

Definition make_anomaly (mu sd : Q) (q : QueryRecord) : anomaly :=
  {| an_query_id := query_id q;
     an_cost_usd := cost_usd q;
     an_z_score := Py.round (z_of mu sd q) 2;
     an_team := team q;
     an_warehouse := warehouse_name q |}.

(** A statistic that is not defined raises [StatisticsError]. *)
Definition statistic (name : string) (v : option Q) : exn + Q :=
  match v with
  | Some x => inr x
  | None => inl (StatisticsError (name ++ " requires more data points"))
  end.

Record alert : Type := {
  al_team : string;
  al_budget : Q;
  al_spent : Q;
  al_pct : Q;
  al_status : string
}.

(** [by_team.get(team, {}).get("cost_usd", 0)] *)
Definition spent_of (by_team : list (string * breakdown_row)) (team_name : string) : Q :=
  match dict_get by_team team_name with
  | Some row => row_cost_usd row
  | None => 0
  end.

(** [round(spent / limit * 100, 1) if limit > 0 else 0] *)
Definition pct_of (spent limit : Q) : Q :=
  if Py.Qltb 0 limit then Py.round (spent / limit * 100) 1 else 0.

(** One iteration of the loop of [budget_alerts]. *)
Definition check_budget (by_team : list (string * breakdown_row))
    (alerts : list alert) (entry : string * Q) : list alert :=
  let (team_name, limit) := entry in
  let spent := spent_of by_team team_name in
  let pct := pct_of spent limit in
  if Qle_bool 80 pct
  then (alerts ++ [ {| al_team := team_name; al_budget := limit;
                       al_spent := spent; al_pct := pct;
                       al_status := if Qle_bool 100 pct then "OVER" else "WARNING" |} ])%list
  else alerts.

(** [CostEngine.budget_alerts] *)
Definition budget_alerts : M (list alert) :=
  by_team <- breakdown "team" ;;
  self <- get ;;
  ret (fold_left (check_budget by_team) (budgets self) []).

Record summary_report : Type := {
  total_queries : nat;
  total_credits_field : Q;
  total_cost_usd : Q;
  by_team : list (string * breakdown_row);
  by_warehouse : list (string * breakdown_row);
  anomalies_field : list anomaly;
  budget_alerts_field : list alert
}.

Section Engine.

(** [statistics.mean] and [statistics.stdev]: each returns a number or
    raises. *)
Variable mean : list Q -> exn + Q.
Variable stdev : list Q -> exn + Q.

(** [CostEngine.anomalies] *)
Definition anomalies (z_thresh : Q) : M (list anomaly) :=
  self <- get ;;
  if (List.length (queries self) <? 3)%nat then ret []
  else
    let costs := map cost_usd (queries self) in
    mu <- eval (mean costs) ;;
    sd <- eval (stdev costs) ;;
    if Qeq_bool sd 0 then ret []
    else
      ret (Py.sorted (fun x => - an_z_score x)
             (map (make_anomaly mu sd)
                  (filter (fun q => Py.Qltb z_thresh (z_of mu sd q)) (queries self)))).

Definition default_z_thresh : Q := 2.

(** [CostEngine.summary] *)
Definition summary : M summary_report :=
  self <- get ;;
  let tc := total_credits (queries self) in
  teams <- breakdown "team" ;;
  warehouses <- breakdown "warehouse_name" ;;
  anoms <- anomalies default_z_thresh ;;
  alerts <- budget_alerts ;;
  ret {| total_queries := List.length (queries self);
         total_credits_field := Py.round tc 4;
         total_cost_usd := Py.round (tc * credit_price self) 2;
         by_team := teams;
         by_warehouse := warehouses;
         anomalies_field := anoms;
         budget_alerts_field := alerts |}.

End Engine.

End Warecost.

(** ** [api.py] *)

Module Api.

Import Warecost.

Local Open Scope Q_scope.

(** The request body after validation by the framework. *)
Record AnalyzeRequest : Type := {
  req_queries : list raw_record;
  req_budgets : list (string * Q);
  req_z_threshold : Q;
  req_credit_price : Q
}.

Inductive detail : Type :=
| Invalid_query_data (exc : exn)
| Invalid_dimension (dimension : string)
| No_budgets_provided.

Record HTTPException : Type := {
  status_code : Z;
  http_detail : detail
}.

(** What a handler ends with: a response body, an [HTTPException] it raised,
    or an exception nobody caught. *)
Inductive outcome (A : Type) : Type :=
| Ok (body : A)
| Raised (e : HTTPException)
| Uncaught (e : exn).

Arguments Ok {A} body.
Arguments Raised {A} e.
Arguments Uncaught {A} e.

Definition then_ {A B : Type} (o : outcome A) (f : A -> outcome B) : outcome B :=
  match o with
  | Ok a => f a
  | Raised e => Raised e
  | Uncaught e => Uncaught e
  end.

(** A method call on an engine held in a local variable. *)
Definition call {A : Type} (m : M A) (engine : CostEngine) : outcome A :=
  match value (m engine) with
  | inr a => Ok a
  | inl e => Uncaught e
  end.

(** [_build_engine]: [TypeError] from [load] becomes a 400; the handler
    also names [KeyError], which [load] never raises. *)
Definition _build_engine (req : AnalyzeRequest) : outcome CostEngine :=
  let engine := CostEngine_init (req_credit_price req) in
  match load (req_queries req) engine with
  | (inl (TypeError msg), _) =>
      Raised {| status_code := 400; http_detail := Invalid_query_data (TypeError msg) |}
  | (inl exc, _) => Uncaught exc
  | (inr _, engine) =>
      Ok (fold_left (fun engine entry =>
                       engine_after (set_budget (fst entry) (snd entry) engine))
                    (req_budgets req) engine)
  end.

Definition valid_dims : list string :=
  ["team"; "warehouse_name"; "dbt_model"; "dag_id"; "user_name"].

(** [dimension in valid_dims] *)
Definition is_valid_dim (dimension : string) : bool :=
  existsb (String.eqb dimension) valid_dims.

(** [POST /v1/breakdown/{dimension}] *)
Definition breakdown (dimension : string) (req : AnalyzeRequest)
    : outcome (string * list (string * breakdown_row)) :=
  if negb (is_valid_dim dimension)
  then Raised {| status_code := 400; http_detail := Invalid_dimension dimension |}
  else
    then_ (_build_engine req) (fun engine =>
    then_ (call (Warecost.breakdown dimension) engine) (fun rows =>
    Ok (dimension, rows))).

(** [POST /v1/budget-check] *)
Definition budget_check (req : AnalyzeRequest) : outcome (list alert) :=
  match req_budgets req with
  | [] => Raised {| status_code := 400; http_detail := No_budgets_provided |}
  | _ =>
      then_ (_build_engine req) (fun engine =>
      call Warecost.budget_alerts engine)
  end.

Section Handlers.

Variable mean : list Q -> exn + Q.
Variable stdev : list Q -> exn + Q.

(** [POST /v1/analyze] *)
Definition analyze (req : AnalyzeRequest) : outcome summary_report :=
  then_ (_build_engine req) (fun engine => call (summary mean stdev) engine).

(** [POST /v1/anomalies] *)
Definition detect_anomalies (req : AnalyzeRequest) : outcome (list anomaly) :=
  then_ (_build_engine req) (fun engine =>
  call (anomalies mean stdev (req_z_threshold req)) engine).

End Handlers.

End Api.

(** ** Notions of the specification

    Definitions that follow the words of the specification rather than the
    code; the theorems below compare the two. *)

Module Spec.

Import Warecost.

Local Open Scope Q_scope.

(** The text after the first occurrence of [sep] in [s], if [sep] occurs. *)
Fixpoint after_first (sep s : string) : option string :=
  if prefix sep s then Some (Py.drop (String.length sep) s)
  else match s with
       | EmptyString => None
       | String _ s' => after_first sep s'
       end.

(** The text before the first occurrence of [sep] in [s]; all of [s] if
    [sep] does not occur. *)
Fixpoint before_first (sep s : string) : string :=
  if prefix sep s then ""
  else match s with
       | EmptyString => ""
       | String c s' => String c (before_first sep s')
       end.

(** The user-name fallback of the team attribute. *)
Definition user_fallback (q : QueryRecord) : string :=
  match after_first "_" (user_name q) with
  | Some _ => before_first "_" (user_name q)
  | None => "unattributed"
  end.

(** The team attribute in the words of the specification: the text after
    the first [team=] up to the next [;], trimmed; else the user-name
    fallback. *)
Definition team_as_specified (q : QueryRecord) : string :=
  match after_first "team=" (query_tag q) with
  | Some t => Py.strip (before_first ";" t)
  | None => user_fallback q
  end.

(** The value the code extracts after a first occurrence of [prefix]: the
    text [t] that follows it, cut at the next [prefix] and at the next [;],
    trimmed. *)
Definition value_in (prefix t : string) : string :=
  Py.strip (before_first ";" (before_first prefix t)).

(** A raw record the constructor accepts: no unknown name, and every field
    without default present. *)
Definition is_some {A : Type} (o : option A) : bool :=
  match o with Some _ => true | None => false end.

Definition well_formed (r : raw_record) : bool :=
  match raw_other r with [] => true | _ :: _ => false end
  && is_some (raw_query_id r) && is_some (raw_query_text r)
  && is_some (raw_user_name r) && is_some (raw_warehouse_name r)
  && is_some (raw_credits_used r) && is_some (raw_bytes_scanned r)
  && is_some (raw_execution_time_ms r) && is_some (raw_start_time r).

(** Every member of a group has the key of the group. *)
Definition keyed (dim : string) (g : list (string * list QueryRecord)) : Prop :=
  forall k qs q, In (k, qs) g -> In q qs -> group_key dim q = k.

(** The sum of the per-group credits a breakdown reports. *)
Definition reported_credits (rows : list (string * breakdown_row)) : Q :=
  Py.sum (map (fun kr => row_credits (snd kr)) rows).

(** The key a record is grouped under by team: its team, or
    ["unattributed"] when it has none. *)
Definition team_key (q : QueryRecord) : string :=
  if Py.truthy (team q) then team q else "unattributed".

(** The records of a batch grouped under the team key [k], in batch
    order. *)
Definition of_team (k : string) (qs : list QueryRecord) : list QueryRecord :=
  filter (fun q => String.eqb (team_key q) k) qs.

(** The spend of a team: the credits of its records, added up in batch
    order, at the engine's price, rounded to two decimals; 0 when the team
    has no record. *)
Definition team_spend (e : CostEngine) (t : string) : Q :=
  match of_team t (queries e) with
  | [] => 0
  | mine => Py.round (Py.sum (map credits_used mine) * credit_price e) 2
  end.

(** The spend percentage: [spent / limit * 100] rounded to one decimal, 0
    when the limit is not positive. *)
Definition spend_percentage (spent limit : Q) : Q :=
  if Py.Qltb 0 limit then Py.round (spent / limit * 100) 1 else 0.

(** The spend percentage of a budget entry against a team breakdown. *)
Definition spend_pct (rows : list (string * breakdown_row)) (entry : string * Q) : Q :=
  pct_of (spent_of rows (fst entry)) (snd entry).

(** The alert of a budget entry. *)
Definition alert_of (rows : list (string * breakdown_row)) (entry : string * Q) : alert :=
  {| al_team := fst entry;
     al_budget := snd entry;
     al_spent := spent_of rows (fst entry);
     al_pct := spend_pct rows entry;
     al_status := if Qle_bool 100 (spend_pct rows entry) then "OVER" else "WARNING" |}.

(** The records flagged at threshold [z], given the mean [mu] and the
    standard deviation [sd] of the costs. *)
Definition flagged (mu sd z : Q) (qs : list QueryRecord) : list QueryRecord :=
  filter (fun q => Py.Qltb z ((cost_usd q - mu) / sd)) qs.

(** The names of the string-valued attributes of a record: the dimensions
    the model of [getattr] covers. *)
Definition string_dims : list string :=
  ["team"; "warehouse_name"; "dbt_model"; "dag_id"; "user_name";
   "query_id"; "query_text"; "start_time"; "query_tag"].

(** The record made from a raw record: every field as the raw record gives
    it, and the tag empty when the raw record has none. *)
Definition built_from (r : raw_record) (q : QueryRecord) : Prop :=
  raw_query_id r = Some (query_id q)
  /\ raw_query_text r = Some (query_text q)
  /\ raw_user_name r = Some (user_name q)
  /\ raw_warehouse_name r = Some (warehouse_name q)
  /\ raw_credits_used r = Some (credits_used q)
  /\ raw_bytes_scanned r = Some (bytes_scanned q)
  /\ raw_execution_time_ms r = Some (execution_time_ms q)
  /\ raw_start_time r = Some (start_time q)
  /\ query_tag q = match raw_query_tag r with Some tag => tag | None => "" end.

(** The keys of a list, each once, in the order they are first seen. *)
Fixpoint first_seen (keys : list string) : list string :=
  match keys with
  | [] => []
  | k :: rest => k :: filter (fun x => negb (String.eqb x k)) (first_seen rest)
  end.

(** The records of a batch whose group key is [k], in batch order. *)
Definition members (dim k : string) (qs : list QueryRecord) : list QueryRecord :=
  filter (fun q => String.eqb (group_key dim q) k) qs.

(** Whether the character [c] occurs in [s]. *)
Fixpoint occurs (c : ascii) (s : string) : bool :=
  match s with
  | EmptyString => false
  | String x s' => Ascii.eqb x c || occurs c s'
  end.

Definition first_char (s : string) : option ascii :=
  match s with
  | EmptyString => None
  | String c _ => Some c
  end.

Fixpoint last_char (s : string) : option ascii :=
  match s with
  | EmptyString => None
  | String c EmptyString => Some c
  | String _ s' => last_char s'
  end.

Definition not_space (o : option ascii) : Prop :=
  match o with
  | Some c => Py.is_space c = false
  | None => True
  end.

(** A text with no white space at either end. *)
Definition trimmed (s : string) : Prop :=
  not_space (first_char s) /\ not_space (last_char s).

(** A handler has answered: with a body, or with a 400. *)
Definition answered {A : Type} (o : Api.outcome A) : Prop :=
  match o with
  | Api.Ok _ => True
  | Api.Raised e => Api.status_code e = 400%Z
  | Api.Uncaught _ => False
  end.

End Spec.

(** ** Data of [test_warecost.py] *)

Module Sample.

Import Warecost.

Local Open Scope Q_scope.

Definition raw (qid text user wh : string) (credits : Q) (bytes ms : Z)
    (start tag : string) : raw_record :=
  {| raw_query_id := Some qid; raw_query_text := Some text;
     raw_user_name := Some user; raw_warehouse_name := Some wh;
     raw_credits_used := Some credits; raw_bytes_scanned := Some bytes;
     raw_execution_time_ms := Some ms; raw_start_time := Some start;
     raw_query_tag := Some tag; raw_other := [] |}.

Definition SAMPLE : list raw_record :=
  [ raw "q1" "SELECT * FROM orders" "analytics_bob" "ANALYTICS_WH"
        (25 # 10) 1000000 3000 "2024-01-15T10:00:00" "team=analytics;dbt:stg_orders";
    raw "q2" "SELECT count(*) FROM users" "ml_alice" "ML_WH"
        (3 # 10) 50000 500 "2024-01-15T11:00:00" "team=ml;dag=daily_train";
    raw "q3" "INSERT INTO reports SELECT *" "analytics_carol" "ANALYTICS_WH"
        15 50000000 45000 "2024-01-15T12:00:00" "team=analytics;dbt:fct_revenue";
    raw "q4" "SELECT * FROM products" "looker" "BI_WH"
        (1 # 10) 10000 200 "2024-01-15T13:00:00" "" ].

(** A record with the given user name, tag and credits; the other fields
    are fixed. *)
Definition record (qid user tag : string) (credits : Q) : QueryRecord :=
  {| query_id := qid; query_text := "SELECT 1"; user_name := user;
     warehouse_name := "WH"; credits_used := credits; bytes_scanned := 0;
     execution_time_ms := 0; start_time := "2024-01-15T10:00:00";
     query_tag := tag |}.

(** A square root to run the engine with: exact on squares of multiples of
    [10^-6], rounded down otherwise. *)
Definition sqrt_down (x : Q) : Q :=
  Qmake (Z.sqrt (Qfloor (x * inject_Z (10 ^ 12)))) (Py.pow10 6).

(** [statistics.mean] and [statistics.stdev] as documented for finite
    data, with that square root. *)
Definition mean (xs : list Q) : exn + Q := statistic "mean" (Py.mean xs).

Definition stdev (xs : list Q) : exn + Q :=
  statistic "stdev" (Py.stdev sqrt_down xs).

(** A [statistics.stdev] that raises, as the library does on data that is
    not finite. *)
Definition stdev_raising (xs : list Q) : exn + Q :=
  inl (AttributeError "'float' object has no attribute 'numerator'").

(** The first sample record with a name the dataclass does not know, and
    without its [credits_used]. *)
Definition unknown_field : raw_record :=
  {| raw_query_id := Some "q1"; raw_query_text := Some "SELECT * FROM orders";
     raw_user_name := Some "analytics_bob"; raw_warehouse_name := Some "ANALYTICS_WH";
     raw_credits_used := Some (25 # 10); raw_bytes_scanned := Some 1000000%Z;
     raw_execution_time_ms := Some 3000%Z;
     raw_start_time := Some "2024-01-15T10:00:00";
     raw_query_tag := Some "team=analytics;dbt:stg_orders";
     raw_other := ["owner"] |}.

Definition missing_field : raw_record :=
  {| raw_query_id := Some "q1"; raw_query_text := Some "SELECT * FROM orders";
     raw_user_name := Some "analytics_bob"; raw_warehouse_name := Some "ANALYTICS_WH";
     raw_credits_used := None; raw_bytes_scanned := Some 1000000%Z;
     raw_execution_time_ms := Some 3000%Z;
     raw_start_time := Some "2024-01-15T10:00:00";
     raw_query_tag := Some "team=analytics;dbt:stg_orders";
     raw_other := [] |}.

(** The engine after [load(SAMPLE)], with the default price. *)
Definition loaded : CostEngine :=
  engine_after (load SAMPLE (CostEngine_init default_credit_price)).

(** An engine with a credit price of 2 and three queries of team [a], of
    1, 1 and 10 credits. *)
Definition priced_two : CostEngine :=
  {| credit_price := 2;
     queries := [record "p1" "u" "team=a" 1; record "p2" "u" "team=a" 1;
                 record "p3" "u" "team=a" 10];
     budgets := [] |}.

(** Two queries of 0.00004 credits each, one of team [a] and one of team
    [b], at the default price. *)
Definition small_credits : CostEngine :=
  {| credit_price := default_credit_price;
     queries := [record "s1" "u" "team=a" (4 # 100000);
                 record "s2" "u" "team=b" (4 # 100000)];
     budgets := [] |}.


(** A request body around the sample records. *)
Definition request (records : list raw_record) : Api.AnalyzeRequest :=
  {| Api.req_queries := records; Api.req_budgets := [];
     Api.req_z_threshold := 2; Api.req_credit_price := 3 |}.

(** The same with a budget of 50 for the analytics team. *)
Definition budgeted : CostEngine :=
  engine_after (set_budget "analytics" 50 loaded).

End Sample.

(** * Properties *)

(** ** Strings: [split] against first occurrences *)

Module PyFacts.

Import Spec.

Lemma append_empty (s : string) : s ++ "" = s.
Proof.
  induction s as [|c s IH]; simpl; [reflexivity | now rewrite IH].
Qed.

Lemma append_snoc (a : string) (c : ascii) (b : string) :
  (a ++ String c "") ++ b = a ++ String c b.
Proof.
  induction a as [|x a IH]; simpl; [reflexivity | now rewrite IH].
Qed.

(** Passing over [k] characters is dropping them. *)
Lemma split_from_skip (sep : string) (s : string) :
  forall (k : nat) (cur : string),
    Py.split_from sep k cur s = Py.split_from sep 0 cur (Py.drop k s).
Proof.
  induction s as [|c s IH]; intros k cur.
  - destruct k; reflexivity.
  - destruct k as [|k]; [reflexivity|].
    simpl Py.drop. rewrite <- IH. reflexivity.
Qed.

Lemma drop_matched (sep : string) (c : ascii) (s : string) :
  sep <> "" ->
  Py.drop (pred (String.length sep)) s = Py.drop (String.length sep) (String c s).
Proof.
  destruct sep; [congruence | reflexivity].
Qed.

(** The scan splits at the first occurrence and goes on behind it. *)
Lemma split_from_first (sep : string) (Hsep : sep <> "") (s : string) :
  forall cur : string,
    Py.split_from sep 0 cur s =
    match after_first sep s with
    | Some t => (cur ++ before_first sep s) :: Py.split sep t
    | None => [cur ++ s]
    end.
Proof.
  induction s as [|c s IH]; intros cur.
  - destruct sep; [congruence|]. simpl. now rewrite append_empty.
  - cbn [Py.split_from after_first before_first].
    destruct (prefix sep (String c s)) eqn:Hp.
    + rewrite append_empty, split_from_skip.
      now rewrite (drop_matched sep c s Hsep).
    + rewrite IH. destruct (after_first sep s); now rewrite append_snoc.
Qed.

Lemma split_first (sep s : string) :
  sep <> "" ->
  Py.split sep s =
  match after_first sep s with
  | Some t => before_first sep s :: Py.split sep t
  | None => [s]
  end.
Proof.
  intros Hsep. unfold Py.split at 1. now rewrite split_from_first.
Qed.

Lemma before_first_absent (sep s : string) :
  after_first sep s = None -> before_first sep s = s.
Proof.
  induction s as [|c s IH].
  - destruct sep; simpl; [discriminate | reflexivity].
  - cbn [after_first before_first].
    destruct (prefix sep (String c s)); [discriminate|].
    intros H. now rewrite IH.
Qed.

(** [s.split(sep)[0]] exists and is the text before the first [sep]. *)
Lemma split_item0 (sep s : string) :
  sep <> "" -> Py.item (Py.split sep s) 0 = Some (before_first sep s).
Proof.
  intros Hsep. rewrite split_first by assumption.
  destruct (after_first sep s) eqn:Ha; [reflexivity|].
  simpl. now rewrite before_first_absent.
Qed.

(** When [sep] occurs, [s.split(sep)[1]] exists and is the text between
    the first occurrence and the next one. *)
Lemma split_item1 (sep s t : string) :
  sep <> "" -> after_first sep s = Some t ->
  Py.item (Py.split sep s) 1 = Some (before_first sep t).
Proof.
  intros Hsep Ha. rewrite split_first, Ha by assumption.
  exact (split_item0 sep t Hsep).
Qed.

Lemma nth_of_item (l : list string) (i : nat) (v d : string) :
  Py.item l i = Some v -> nth i l d = v.
Proof.
  unfold Py.item. revert l. induction i as [|i IH]; intros [|x l] H; simpl in *;
    try discriminate; [congruence | now apply IH].
Qed.

(** [sep in s] says that there is a first occurrence. *)
Lemma contains_after_first (sep s : string) :
  Py.contains sep s = is_some (after_first sep s).
Proof.
  induction s as [|c s IH].
  - destruct sep; reflexivity.
  - cbn [Py.contains after_first].
    destruct (prefix sep (String c s)); simpl; [reflexivity | exact IH].
Qed.

End PyFacts.

(** ** The record normaliser *)

Module NormalizerFacts.

Import Warecost Spec PyFacts.

(** [_extract] in terms of first occurrences. *)
Lemma extract_value_in (q : QueryRecord) (prefix : string) :
  prefix <> "" ->
  _extract q prefix = option_map (value_in prefix) (after_first prefix (query_tag q)).
Proof.
  intros Hp. unfold _extract, value_in.
  rewrite contains_after_first.
  destruct (after_first prefix (query_tag q)) as [t|] eqn:Ha; simpl; [|reflexivity].
  rewrite (nth_of_item _ 1 _ "" (split_item1 prefix _ t Hp Ha)).
  rewrite (nth_of_item _ 0 _ "" (split_item0 ";" _ ltac:(discriminate))).
  reflexivity.
Qed.

Lemma fallback_user (q : QueryRecord) :
  (if Py.contains "_" (user_name q)
   then nth 0 (Py.split "_" (user_name q)) ""
   else "unattributed") = user_fallback q.
Proof.
  unfold user_fallback. rewrite contains_after_first.
  destruct (after_first "_" (user_name q)); simpl; [|reflexivity].
  apply nth_of_item, split_item0. discriminate.
Qed.

(** C5 (as stated) fails: with tag [team=] and user [ml_alice] the
    specified team is the empty text after [team=], the code answers [ml]. *)
Lemma team_as_specified_fails :
  team (Sample.record "q" "ml_alice" "team=" 1)
  <> team_as_specified (Sample.record "q" "ml_alice" "team=" 1).
Proof.
  vm_compute. discriminate.
Qed.

(** C5 (amended): when [team=] occurs in the tag, the team is the text after
    its first occurrence, cut at the next [team=] and at the next [;] and
    trimmed, provided that text is not empty; when [team=] does not occur or
    that text is empty, the team is the part of the user name before its
    first underscore if it has one, and ["unattributed"] otherwise. *)
Theorem team_extraction (q : QueryRecord) :
  team q =
  match after_first "team=" (query_tag q) with
  | Some t => if Py.truthy (value_in "team=" t) then value_in "team=" t
              else user_fallback q
  | None => user_fallback q
  end.
Proof.
  unfold team. rewrite fallback_user, extract_value_in by discriminate.
  destruct (after_first "team=" (query_tag q)); reflexivity.
Qed.

(** C6 (as stated) fails: the tag [dbt:;model=m] contains [dbt:], the value
    extracted for [dbt:] is the empty string, and the model is [m]. *)
Lemma dbt_first_match_fails :
  Py.contains "dbt:" (query_tag (Sample.record "q" "u" "dbt:;model=m" 1)) = true
  /\ dbt_model (Sample.record "q" "u" "dbt:;model=m" 1)
     <> _extract (Sample.record "q" "u" "dbt:;model=m" 1) "dbt:".
Proof.
  split; [reflexivity | vm_compute; discriminate].
Qed.

(** C6 (amended): when the value extracted for [dbt:] is a non-empty string,
    the model is that value, whatever [model=] gives; when [dbt:] is absent
    or its extracted value is empty, the model is the value extracted for
    [model=]; and when neither [dbt:] nor [model=] occurs in the tag, the
    model is [None]. *)
Theorem dbt_model_precedence (q : QueryRecord) :
  (forall v, _extract q "dbt:" = Some v -> v <> "" -> dbt_model q = Some v)
  /\ (Py.contains "dbt:" (query_tag q) = false \/ _extract q "dbt:" = Some ""
      -> dbt_model q = _extract q "model=")
  /\ (Py.contains "dbt:" (query_tag q) = false ->
      Py.contains "model=" (query_tag q) = false -> dbt_model q = None).
Proof.
  unfold dbt_model. repeat split.
  - intros v Hv Hne. rewrite Hv. destruct v; [congruence | reflexivity].
  - intros [Habs | Hemp].
    + unfold _extract at 1 2. now rewrite Habs.
    + now rewrite Hemp.
  - intros Hd Hm. unfold _extract. now rewrite Hd, Hm.
Qed.

Lemma dbt_model_precedence_witness :
  dbt_model (Sample.record "q" "u" "dbt:stg;model=m" 1) = Some "stg"
  /\ dbt_model (Sample.record "q" "u" "team=a;model=m" 1) = Some "m"
  /\ dbt_model (Sample.record "q" "u" "team=a" 1) = None.
Proof.
  split; [|split].
  - apply (proj1 (dbt_model_precedence (Sample.record "q" "u" "dbt:stg;model=m" 1)));
      [reflexivity | discriminate].
  - rewrite (proj1 (proj2 (dbt_model_precedence (Sample.record "q" "u" "team=a;model=m" 1))));
      [reflexivity | left; reflexivity].
  - apply (proj2 (proj2 (dbt_model_precedence (Sample.record "q" "u" "team=a" 1))));
      reflexivity.
Defined.

End NormalizerFacts.

(** ** The cost engine: state *)

Module EngineFacts.

Import Warecost Spec.

Local Open Scope Q_scope.

(** The rows [breakdown] computes from an engine's fields. *)
Lemma breakdown_run (dim : string) (e : CostEngine) :
  breakdown dim e =
  (inr (map (fun kqs => (fst kqs, make_row (credit_price e) (snd kqs)))
            (Py.sorted (fun x => - total_credits (snd x))
                       (group_queries dim (queries e)))), e).
Proof. reflexivity. Qed.

Lemma breakdown_reads (dim : string) (e : CostEngine) :
  engine_after (breakdown dim e) = e.
Proof. reflexivity. Qed.

Lemma budget_alerts_run (e : CostEngine) :
  budget_alerts e =
  (inr (fold_left
          (check_budget
             (map (fun kqs => (fst kqs, make_row (credit_price e) (snd kqs)))
                  (Py.sorted (fun x => - total_credits (snd x))
                             (group_queries "team" (queries e)))))
          (budgets e) []), e).
Proof. reflexivity. Qed.

Lemma budget_alerts_reads (e : CostEngine) :
  engine_after (budget_alerts e) = e.
Proof. reflexivity. Qed.

Lemma anomalies_reads (mean stdev : list Q -> exn + Q) (z : Q) (e : CostEngine) :
  engine_after (anomalies mean stdev z e) = e.
Proof.
  unfold anomalies, bind, get, eval, ret, engine_after. simpl.
  destruct (List.length (queries e) <? 3)%nat; [reflexivity|].
  destruct (mean _); [reflexivity|].
  destruct (stdev _) as [|sd]; [reflexivity|].
  now destruct (Qeq_bool sd 0).
Qed.

Lemma summary_reads (mean stdev : list Q -> exn + Q) (e : CostEngine) :
  engine_after (summary mean stdev e) = e.
Proof.
  unfold summary.
  cbv beta iota zeta delta [bind get ret breakdown budget_alerts].
  pose proof (anomalies_reads mean stdev default_z_thresh e) as Ha.
  destruct (anomalies mean stdev default_z_thresh e) as [[exc|anoms] e'];
    simpl in Ha; subst e'; reflexivity.
Qed.

(** C8: [summary] leaves the engine as it found it, and a second call right
    after the first returns the same thing (or raises the same exception),
    whatever the statistics functions do. *)
Theorem summary_idempotent (mean stdev : list Q -> exn + Q) (e : CostEngine) :
  engine_after (summary mean stdev e) = e
  /\ value (summary mean stdev (engine_after (summary mean stdev e)))
     = value (summary mean stdev e).
Proof.
  split; [apply summary_reads | now rewrite summary_reads].
Qed.

(** *** [load] *)

Lemma init_well_formed (r : raw_record) :
  well_formed r = true -> exists q, QueryRecord_init r = inr q.
Proof.
  unfold well_formed, QueryRecord_init.
  destruct r as [a b c d e f g h tag other]; simpl.
  destruct other; [|discriminate].
  destruct a, b, c, d, e, f, g, h; try discriminate.
  intros _. eexists. reflexivity.
Qed.

Lemma init_malformed (r : raw_record) :
  well_formed r = false -> exists msg, QueryRecord_init r = inl (TypeError msg).
Proof.
  unfold well_formed, QueryRecord_init.
  destruct r as [a b c d e f g h tag other]; simpl.
  destruct other; [|intros _; eexists; reflexivity].
  destruct a, b, c, d, e, f, g, h; try discriminate;
    intros _; eexists; reflexivity.
Qed.

Lemma build_records_well_formed (records : list raw_record) :
  forallb well_formed records = true ->
  exists qs, build_records records = inr qs /\ List.length qs = List.length records.
Proof.
  induction records as [|r rest IH]; simpl; intros H.
  - now exists [].
  - apply andb_prop in H as [Hr Hrest].
    destruct (init_well_formed r Hr) as [q ->].
    destruct (IH Hrest) as (qs & -> & Hlen).
    exists (q :: qs). simpl. now rewrite Hlen.
Qed.

Lemma build_records_malformed (records : list raw_record) :
  forallb well_formed records = false ->
  exists msg, build_records records = inl (TypeError msg).
Proof.
  induction records as [|r rest IH]; simpl; intros H; [discriminate|].
  destruct (well_formed r) eqn:Hr.
  - destruct (init_well_formed r Hr) as [q ->]. simpl.
    destruct (IH H) as [msg ->]. now exists msg.
  - destruct (init_malformed r Hr) as [msg ->]. now exists msg.
Qed.

(** A load of well-formed records succeeds, returns their number and
    replaces the batch, and nothing else. *)
Lemma load_well_formed (records : list raw_record) (e : CostEngine) :
  forallb well_formed records = true ->
  exists qs,
    build_records records = inr qs
    /\ load records e =
       (inr (List.length records),
        {| credit_price := credit_price e; queries := qs; budgets := budgets e |}).
Proof.
  intros H. destruct (build_records_well_formed records H) as (qs & Hqs & Hlen).
  exists qs. split; [assumption|].
  unfold load, bind, eval, get, put, ret. rewrite Hqs. simpl. now rewrite Hlen.
Qed.

(** C9: a load that raises leaves the engine, batch and budgets included, as
    it was; it raises [TypeError], and does so because some record is not
    well formed. *)
Theorem load_failure_atomic (e : CostEngine) (records : list raw_record) (exc : exn)
    (Hfail : value (load records e) = inl exc) :
  engine_after (load records e) = e
  /\ queries (engine_after (load records e)) = queries e
  /\ budgets (engine_after (load records e)) = budgets e
  /\ (exists msg, exc = TypeError msg)
  /\ forallb well_formed records = false.
Proof.
  destruct (forallb well_formed records) eqn:Hwf.
  - destruct (load_well_formed records e Hwf) as (qs & _ & Hrun).
    rewrite Hrun in Hfail. discriminate.
  - destruct (build_records_malformed records Hwf) as [msg Hmsg].
    assert (Hrun : load records e = (inl (TypeError msg), e)).
    { unfold load, bind, eval. now rewrite Hmsg. }
    rewrite Hrun in *. simpl in *.
    repeat split; try reflexivity. exists msg. congruence.
Qed.

Lemma load_failure_atomic_witness :
  engine_after (load [Sample.unknown_field] Sample.budgeted) = Sample.budgeted
  /\ queries (engine_after (load [Sample.unknown_field] Sample.budgeted))
     = queries Sample.budgeted
  /\ budgets (engine_after (load [Sample.unknown_field] Sample.budgeted))
     = budgets Sample.budgeted
  /\ (exists msg, TypeError "unexpected keyword argument: owner" = TypeError msg)
  /\ forallb well_formed [Sample.unknown_field] = false.
Proof.
  apply (load_failure_atomic Sample.budgeted [Sample.unknown_field]
           (TypeError "unexpected keyword argument: owner")).
  reflexivity.
Defined.

(** *** [set_budget] *)

Lemma dict_get_set_same {V : Type} (d : list (string * V)) (k : string) (v : V) :
  dict_get (dict_set d k v) k = Some v.
Proof.
  induction d as [|[k' v'] d IH]; simpl.
  - now rewrite String.eqb_refl.
  - destruct (String.eqb k' k) eqn:Hk; simpl.
    + now rewrite String.eqb_refl.
    + now rewrite Hk.
Qed.

Lemma dict_get_set_other {V : Type} (d : list (string * V)) (k k' : string) (v : V) :
  k' <> k -> dict_get (dict_set d k v) k' = dict_get d k'.
Proof.
  intros Hne. induction d as [|[k0 v0] d IH]; simpl.
  - now rewrite (proj2 (String.eqb_neq k k')) by congruence.
  - destruct (String.eqb k0 k) eqn:Hk; simpl.
    + apply String.eqb_eq in Hk. subst k0.
      now rewrite (proj2 (String.eqb_neq k k')) by congruence.
    + destruct (String.eqb k0 k'); [reflexivity | exact IH].
Qed.

Lemma dict_set_key_in {V : Type} (d : list (string * V)) (k : string) (v : V)
    (x : string) :
  In x (map fst (dict_set d k v)) -> x = k \/ In x (map fst d).
Proof.
  induction d as [|[k' v'] d IH]; simpl.
  - intros [H|[]]. now left.
  - destruct (String.eqb k' k); simpl; intros [H|H]; auto.
    destruct (IH H); auto.
Qed.

Lemma dict_set_unique {V : Type} (d : list (string * V)) (k : string) (v : V) :
  NoDup (map fst d) -> NoDup (map fst (dict_set d k v)).
Proof.
  induction d as [|[k' v'] d IH]; simpl; intros Hnd.
  - constructor; [intros [] | constructor].
  - inversion Hnd as [|? ? Hnotin Hrest]; subst.
    destruct (String.eqb k' k) eqn:Hk; simpl.
    + apply String.eqb_eq in Hk. subst. now constructor.
    + constructor; [|now apply IH].
      intros Hin. apply dict_set_key_in in Hin as [Heq|Hin].
      * subst. now rewrite String.eqb_refl in Hk.
      * contradiction.
Qed.

(** C10: [set_budget] returns normally; afterwards the team's entry is the
    amount given, also when the team had an entry before (the last write
    wins, and keys stay unique), every other team's entry is what it was,
    and the batch and the credit price are untouched. *)
Theorem set_budget_frame (e : CostEngine) (team_name : string) (amount : Q) :
  value (set_budget team_name amount e) = inr tt
  /\ dict_get (budgets (engine_after (set_budget team_name amount e))) team_name
     = Some amount
  /\ (forall first,
        dict_get (budgets (engine_after
                            (set_budget team_name amount
                               (engine_after (set_budget team_name first e)))))
                 team_name
        = Some amount)
  /\ (NoDup (map fst (budgets e)) ->
      NoDup (map fst (budgets (engine_after (set_budget team_name amount e)))))
  /\ (forall other, other <> team_name ->
        dict_get (budgets (engine_after (set_budget team_name amount e))) other
        = dict_get (budgets e) other)
  /\ queries (engine_after (set_budget team_name amount e)) = queries e
  /\ credit_price (engine_after (set_budget team_name amount e)) = credit_price e.
Proof.
  unfold set_budget, bind, get, put, value, engine_after. simpl.
  repeat split.
  - apply dict_get_set_same.
  - intros first. apply dict_get_set_same.
  - apply dict_set_unique.
  - intros other Hne. now apply dict_get_set_other.
Qed.

Lemma set_budget_frame_witness :
  dict_get (budgets (engine_after (set_budget "ml" 100 Sample.budgeted))) "analytics"
  = Some 50.
Proof.
  rewrite (proj1 (proj2 (proj2 (proj2 (proj2
             (set_budget_frame Sample.budgeted "ml" 100))))) "analytics");
    [reflexivity | discriminate].
Defined.

End EngineFacts.

(** ** Sorting *)

Module SortFacts.

Local Open Scope Q_scope.

Lemma Qltb_lt (x y : Q) : Py.Qltb x y = true <-> x < y.
Proof.
  unfold Py.Qltb. rewrite negb_true_iff. split.
  - intros H. apply Qnot_le_lt. intros Hle.
    apply Qle_bool_iff in Hle. congruence.
  - intros H. destruct (Qle_bool y x) eqn:Hle; [|reflexivity].
    apply Qle_bool_iff in Hle. now apply Qlt_not_le in H.
Qed.

Lemma Qltb_ge (x y : Q) : Py.Qltb x y = false <-> y <= x.
Proof.
  unfold Py.Qltb. rewrite negb_false_iff. apply Qle_bool_iff.
Qed.

Section Sorted.

Context {A : Type} (key : A -> Q).

Lemma insert_permutation (x : A) (l : list A) :
  Permutation (Py.insert key x l) (x :: l).
Proof.
  induction l as [|y l IH]; simpl; [reflexivity|].
  destruct (Py.Qltb (key y) (key x)); [|reflexivity].
  rewrite IH. apply perm_swap.
Qed.

Lemma sorted_permutation (l : list A) : Permutation (Py.sorted key l) l.
Proof.
  induction l as [|x l IH]; simpl; [reflexivity|].
  rewrite insert_permutation. now apply perm_skip.
Qed.



End Sorted.



Section Stable.

Context {A : Type} (key : A -> Q) (c : Q).



End Stable.



End SortFacts.

(** ** Grouping *)

Module GroupFacts.

Import Warecost Spec.

Local Open Scope list_scope.

Lemma setdefault_append_members (g : list (string * list QueryRecord))
    (k : string) (q : QueryRecord) :
  Permutation (List.concat (map snd (setdefault_append g k q)))
              (List.concat (map snd g) ++ [q])%list.
Proof.
  induction g as [|[k' qs] g IH]; simpl; [reflexivity|].
  destruct (String.eqb k' k); simpl.
  - rewrite <- !app_assoc. apply Permutation_app_head, Permutation_app_comm.
  - rewrite <- app_assoc. now apply Permutation_app_head.
Qed.

Lemma setdefault_append_key_in (g : list (string * list QueryRecord))
    (k : string) (q : QueryRecord) (x : string) :
  In x (map fst (setdefault_append g k q)) -> x = k \/ In x (map fst g).
Proof.
  induction g as [|[k' qs] g IH]; simpl.
  - intros [H|[]]. now left.
  - destruct (String.eqb k' k); simpl; intros [H|H]; auto.
    destruct (IH H); auto.
Qed.

Lemma setdefault_append_keys (g : list (string * list QueryRecord))
    (k : string) (q : QueryRecord) :
  NoDup (map fst g) -> NoDup (map fst (setdefault_append g k q)).
Proof.
  induction g as [|[k' qs] g IH]; simpl; intros Hnd.
  - constructor; [intros [] | constructor].
  - inversion Hnd as [|? ? Hnotin Hrest]; subst.
    destruct (String.eqb k' k) eqn:Hk; simpl.
    + now constructor.
    + constructor; [|now apply IH].
      intros Hin. apply setdefault_append_key_in in Hin as [Heq|Hin].
      * subst. now rewrite String.eqb_refl in Hk.
      * contradiction.
Qed.

Lemma setdefault_append_keyed (dim : string) (g : list (string * list QueryRecord))
    (q : QueryRecord) :
  keyed dim g -> keyed dim (setdefault_append g (group_key dim q) q).
Proof.
  unfold keyed. induction g as [|[k' qs'] g IH]; simpl; intros Hg k qs x Hin Hx.
  - destruct Hin as [Heq|[]]. injection Heq as <- <-.
    destruct Hx as [<-|[]]. reflexivity.
  - destruct (String.eqb k' (group_key dim q)) eqn:Hk.
    + destruct Hin as [Heq|Hin].
      * injection Heq as <- <-. apply in_app_or in Hx as [Hx|[<-|[]]].
        -- apply (Hg k' qs'); [now left | exact Hx].
        -- apply String.eqb_eq in Hk. now symmetry.
      * apply (Hg k qs); [now right | exact Hx].
    + destruct Hin as [Heq|Hin].
      * injection Heq as <- <-. apply (Hg k' qs'); [now left | exact Hx].
      * apply (IH (fun k0 qs0 q0 H => Hg k0 qs0 q0 (or_intror H)) k qs x Hin Hx).
Qed.

Lemma group_loop (dim : string) (qs : list QueryRecord) :
  forall g : list (string * list QueryRecord),
    let g' := fold_left (fun groups q => setdefault_append groups (group_key dim q) q) qs g in
    Permutation (List.concat (map snd g')) (List.concat (map snd g) ++ qs)%list
    /\ (NoDup (map fst g) -> NoDup (map fst g'))
    /\ (keyed dim g -> keyed dim g').
Proof.
  induction qs as [|q qs IH]; intros g; simpl.
  - rewrite app_nil_r. auto.
  - destruct (IH (setdefault_append g (group_key dim q) q)) as (Hperm & Hnd & Hkey).
    split; [|split].
    + rewrite Hperm, setdefault_append_members, <- app_assoc. reflexivity.
    + intros H. now apply Hnd, setdefault_append_keys.
    + intros H. now apply Hkey, setdefault_append_keyed.
Qed.

(** The groups partition the batch: every record is in one group, keys do
    not repeat, and a record is in the group of its own key. *)
Lemma group_queries_partition (dim : string) (qs : list QueryRecord) :
  Permutation (List.concat (map snd (group_queries dim qs))) qs
  /\ NoDup (map fst (group_queries dim qs))
  /\ keyed dim (group_queries dim qs).
Proof.
  destruct (group_loop dim qs []) as (Hperm & Hnd & Hkey).
  split; [exact Hperm|]. split.
  - apply Hnd. constructor.
  - apply Hkey. intros k l q [].
Qed.

Lemma group_key_team (q : QueryRecord) :
  group_key "team" q = if Py.truthy (team q) then team q else "unattributed".
Proof. reflexivity. Qed.

Lemma first_seen_In (k : string) (l : list string) :
  In k (first_seen l) <-> In k l.
Proof.
  induction l as [|x l IH]; simpl; [tauto|].
  rewrite filter_In, IH, negb_true_iff, String.eqb_neq.
  destruct (string_dec x k) as [->|Hne]; [tauto|].
  split; [tauto|]. intros [H|H]; [tauto|]. right. split; [exact H | congruence].
Qed.

Lemma first_seen_NoDup (l : list string) : NoDup (first_seen l).
Proof.
  induction l as [|x l IH]; simpl; constructor.
  - rewrite filter_In, negb_true_iff, String.eqb_neq. tauto.
  - now apply NoDup_filter.
Qed.

Lemma first_seen_snoc (l : list string) (k : string) :
  first_seen (l ++ [k]) =
  if existsb (String.eqb k) l then first_seen l else first_seen l ++ [k].
Proof.
  induction l as [|x l IH]; simpl; [reflexivity|].
  rewrite IH. destruct (String.eqb k x) eqn:Hkx; simpl.
  - apply String.eqb_eq in Hkx. subst x.
    destruct (existsb (String.eqb k) l); [reflexivity|].
    rewrite filter_app. simpl. rewrite String.eqb_refl. simpl.
    now rewrite app_nil_r.
  - destruct (existsb (String.eqb k) l); [reflexivity|].
    rewrite filter_app. simpl. rewrite Hkx. reflexivity.
Qed.

(** Appending to a table that has one slot per key. *)
Lemma setdefault_append_present (F : string -> list QueryRecord) (ks : list string)
    (k : string) (q : QueryRecord) :
  NoDup ks -> In k ks ->
  setdefault_append (map (fun k' => (k', F k')) ks) k q =
  map (fun k' => (k', if String.eqb k' k then F k' ++ [q] else F k')) ks.
Proof.
  induction ks as [|k0 ks IH]; simpl; intros Hnd Hin; [contradiction|].
  inversion Hnd as [|? ? Hnotin Hrest]; subst.
  destruct (String.eqb k0 k) eqn:Hk.
  - apply String.eqb_eq in Hk. subst k0. f_equal.
    apply map_ext_in. intros k' Hk'.
    destruct (String.eqb k' k) eqn:Heq; [|reflexivity].
    apply String.eqb_eq in Heq. now subst.
  - f_equal. apply IH; [exact Hrest|].
    destruct Hin as [->|Hin]; [|exact Hin].
    now rewrite String.eqb_refl in Hk.
Qed.

Lemma setdefault_append_absent (F : string -> list QueryRecord) (ks : list string)
    (k : string) (q : QueryRecord) :
  ~ In k ks ->
  setdefault_append (map (fun k' => (k', F k')) ks) k q =
  map (fun k' => (k', F k')) ks ++ [(k, [q])].
Proof.
  induction ks as [|k0 ks IH]; simpl; intros Hnotin; [reflexivity|].
  destruct (String.eqb k0 k) eqn:Hk.
  - apply String.eqb_eq in Hk. tauto.
  - f_equal. apply IH. tauto.
Qed.

Lemma existsb_key (k : string) (l : list string) :
  existsb (String.eqb k) l = true <-> In k l.
Proof.
  rewrite existsb_exists. split.
  - intros (x & Hin & Heq). apply String.eqb_eq in Heq. now subst.
  - intros Hin. exists k. split; [exact Hin | apply String.eqb_refl].
Qed.

Lemma members_absent (dim k : string) (qs : list QueryRecord) :
  ~ In k (map (group_key dim) qs) -> members dim k qs = [].
Proof.
  unfold members. induction qs as [|q qs IH]; simpl; intros H; [reflexivity|].
  destruct (String.eqb (group_key dim q) k) eqn:Hk.
  - apply String.eqb_eq in Hk. tauto.
  - apply IH. tauto.
Qed.

(** The table the grouping loop has built after the records [qs]. *)
Lemma group_queries_snoc (dim : string) (qs : list QueryRecord) :
  group_queries dim qs =
  map (fun k => (k, members dim k qs)) (first_seen (map (group_key dim) qs)).
Proof.
  induction qs as [|q qs IH] using rev_ind; [reflexivity|].
  unfold group_queries in *. rewrite fold_left_app. simpl. rewrite IH.
  rewrite map_app. simpl. rewrite first_seen_snoc.
  set (k := group_key dim q). set (keys := map (group_key dim) qs).
  destruct (existsb (String.eqb k) keys) eqn:Hex.
  - apply existsb_key in Hex.
    rewrite setdefault_append_present;
      [|apply first_seen_NoDup | now apply first_seen_In].
    apply map_ext. intros k'. unfold members. rewrite filter_app. simpl.
    fold k. rewrite (String.eqb_sym k' k).
    destruct (String.eqb k k'); [reflexivity | now rewrite app_nil_r].
  - assert (Hnot : ~ In k keys).
    { intros Hin. apply existsb_key in Hin. congruence. }
    rewrite setdefault_append_absent by now rewrite first_seen_In.
    rewrite map_app. simpl. f_equal.
    + apply map_ext_in. intros k' Hk'. unfold members. rewrite filter_app. simpl.
      fold k. destruct (String.eqb k k') eqn:Heq; [|now rewrite app_nil_r].
      apply String.eqb_eq in Heq. rewrite <- Heq in Hk'.
      apply (proj1 (first_seen_In _ _)) in Hk'. exfalso. exact (Hnot Hk').
    + unfold members. rewrite filter_app. simpl. fold k.
      rewrite String.eqb_refl. fold (members dim k qs).
      now rewrite (members_absent dim k qs Hnot).
Qed.

Lemma group_key_not_empty (dim : string) (q : QueryRecord) :
  group_key dim q <> "".
Proof.
  unfold group_key. destruct (getattr q dim) as [[|c s]|]; simpl; discriminate.
Qed.

Lemma dict_get_absent {V : Type} (d : list (string * V)) (k : string) :
  ~ In k (map fst d) -> dict_get d k = None.
Proof.
  induction d as [|[k' v'] d IH]; simpl; intros H; [reflexivity|].
  destruct (String.eqb k' k) eqn:Hk.
  - apply String.eqb_eq in Hk. tauto.
  - apply IH. tauto.
Qed.

Lemma dict_get_present {V : Type} (d : list (string * V)) (k : string) (v : V) :
  NoDup (map fst d) -> In (k, v) d -> dict_get d k = Some v.
Proof.
  induction d as [|[k' v'] d IH]; simpl; intros Hnd Hin; [contradiction|].
  inversion Hnd as [|? ? Hnotin Hrest]; subst.
  destruct Hin as [Heq|Hin].
  - injection Heq as -> ->. now rewrite String.eqb_refl.
  - destruct (String.eqb k' k) eqn:Hk; [|now apply IH].
    apply String.eqb_eq in Hk. subst k'.
    exfalso. apply Hnotin. apply in_map_iff. now exists (k, v).
Qed.

Lemma breakdown_rows (dim : string) (e : CostEngine) :
  exists ordered,
    breakdown dim e =
      (inr (map (fun kqs => (fst kqs, make_row (credit_price e) (snd kqs))) ordered), e)
    /\ ordered = Py.sorted (fun x => (- total_credits (snd x))%Q)
                           (group_queries dim (queries e))
    /\ Permutation ordered (group_queries dim (queries e)).
Proof.
  eexists. split; [apply EngineFacts.breakdown_run|].
  split; [reflexivity | apply SortFacts.sorted_permutation].
Qed.

(** The rows of a breakdown, looked up by key. *)
Lemma breakdown_get (dim : string) (e : CostEngine) :
  exists rows,
    value (breakdown dim e) = inr rows
    /\ NoDup (map fst rows)
    /\ ~ In "" (map fst rows)
    /\ (forall k,
          dict_get rows k =
          if existsb (fun q => String.eqb (group_key dim q) k) (queries e)
          then Some (make_row (credit_price e) (members dim k (queries e)))
          else None).
Proof.
  destruct (breakdown_rows dim e) as (ordered & Hrun & _ & Hperm).
  rewrite Hrun. eexists. split; [reflexivity|].
  set (rows := map _ ordered).
  assert (Hkeys : Permutation (map fst rows)
                              (first_seen (map (group_key dim) (queries e)))).
  { unfold rows. rewrite map_map. simpl.
    rewrite (Permutation_map fst Hperm), group_queries_snoc, map_map.
    simpl. now rewrite map_id. }
  assert (Hnd : NoDup (map fst rows)).
  { apply (Permutation_NoDup (Permutation_sym Hkeys)), first_seen_NoDup. }
  split; [exact Hnd|]. split.
  { intros Hin. apply (Permutation_in _ Hkeys) in Hin.
    apply (proj1 (first_seen_In _ _)) in Hin.
    apply in_map_iff in Hin as (q & Hq & _). now apply group_key_not_empty in Hq. }
  intros k.
  destruct (existsb _ (queries e)) eqn:Hex.
  - apply dict_get_present; [exact Hnd|].
    apply existsb_exists in Hex as (q & Hq & Heq). apply String.eqb_eq in Heq.
    unfold rows. apply in_map_iff. exists (k, members dim k (queries e)).
    split; [reflexivity|].
    apply (Permutation_in _ (Permutation_sym Hperm)).
    rewrite group_queries_snoc. apply in_map_iff. exists k.
    split; [reflexivity|]. apply first_seen_In, in_map_iff. now exists q.
  - apply dict_get_absent. intros Hin.
    apply (Permutation_in _ Hkeys) in Hin.
    apply (proj1 (first_seen_In _ _)) in Hin.
    apply in_map_iff in Hin as (q & Hq & Hin).
    assert (Htrue : existsb (fun q => String.eqb (group_key dim q) k) (queries e) = true).
    { apply existsb_exists. exists q. split; [exact Hin|]. now apply String.eqb_eq. }
    congruence.
Qed.

(** *** Rounding an integer *)

Lemma round_half_even_integer (x : Q) (k : Z) :
  (x == inject_Z k)%Q -> Py.round_half_even x = k.
Proof.
  intros H. unfold Py.round_half_even.
  rewrite (Qfloor_comp _ _ H), Qfloor_Z.
  assert (Hc : Qcompare (x - inject_Z k) (1 # 2) = Lt).
  { apply (proj1 (Qlt_alt _ _)). rewrite H.
    unfold Qlt, Qminus, Qplus. simpl. lia. }
  now rewrite Hc.
Qed.

(** *** Counts *)

Lemma fold_sumZ (l : list Z) : forall a : Z, fold_left Z.add l a = (a + Py.sumZ l)%Z.
Proof.
  unfold Py.sumZ. induction l as [|x l IH]; intros a; simpl; [lia|].
  rewrite IH, (IH x). lia.
Qed.

Lemma sumZ_cons (x : Z) (l : list Z) : Py.sumZ (x :: l) = (x + Py.sumZ l)%Z.
Proof.
  unfold Py.sumZ at 1. simpl. now rewrite fold_sumZ.
Qed.

Lemma sumZ_app (l1 l2 : list Z) :
  Py.sumZ (l1 ++ l2)%list = (Py.sumZ l1 + Py.sumZ l2)%Z.
Proof.
  induction l1 as [|x l1 IH]; simpl; [reflexivity|].
  rewrite !sumZ_cons, IH. lia.
Qed.

Lemma sumZ_permutation (l1 l2 : list Z) :
  Permutation l1 l2 -> Py.sumZ l1 = Py.sumZ l2.
Proof.
  induction 1 as [|x l l' _ IH|x y l|l l' l'' _ IH1 _ IH2].
  - reflexivity.
  - now rewrite !sumZ_cons, IH.
  - rewrite !sumZ_cons. lia.
  - now rewrite IH1.
Qed.

Lemma bytes_concat (gs : list (string * list QueryRecord)) :
  Py.sumZ (map (fun kqs => Py.sumZ (map bytes_scanned (snd kqs))) gs)
  = Py.sumZ (map bytes_scanned (List.concat (map snd gs))).
Proof.
  induction gs as [|[k qs] gs IH]; simpl; [reflexivity|].
  now rewrite sumZ_cons, map_app, sumZ_app, IH.
Qed.

(** Counts and bytes over the rows of a breakdown. *)
Lemma rows_counts (dim : string) (e : CostEngine) :
  exists rows,
    value (breakdown dim e) = inr rows
    /\ list_sum (map (fun kr => row_queries (snd kr)) rows)
       = List.length (queries e)
    /\ Py.sumZ (map (fun kr => row_bytes (snd kr)) rows)
       = Py.sumZ (map bytes_scanned (queries e)).
Proof.
  destruct (breakdown_rows dim e) as (ordered & Hrun & _ & Hperm).
  destruct (group_queries_partition dim (queries e)) as (Hpart & _ & _).
  rewrite Hrun. eexists. split; [reflexivity|].
  rewrite !map_map. simpl. split.
  - rewrite <- (Permutation_length Hpart), length_concat, map_map.
    apply Permutation_list_sum.
    apply (Permutation_map (fun kqs => List.length (snd kqs)) Hperm).
  - rewrite (sumZ_permutation _ _ (Permutation_map bytes_scanned (Permutation_sym Hpart))).
    rewrite <- bytes_concat.
    apply sumZ_permutation.
    apply (Permutation_map (fun kqs => Py.sumZ (map bytes_scanned (snd kqs))) Hperm).
Qed.

Lemma members_of_team (t : string) (qs : list QueryRecord) :
  members "team" t qs = of_team t qs.
Proof. reflexivity. Qed.

Lemma existsb_filter {A : Type} (p : A -> bool) (l : list A) :
  existsb p l = match filter p l with [] => false | _ :: _ => true end.
Proof.
  induction l as [|x l IH]; simpl; [reflexivity|].
  destruct (p x); [reflexivity | exact IH].
Qed.

Lemma Permutation_concat {A : Type} (l l' : list (list A)) :
  Permutation l l' -> Permutation (List.concat l) (List.concat l').
Proof.
  induction 1 as [|x l l' _ IH|x y l|l l' l'' _ IH1 _ IH2]; simpl.
  - reflexivity.
  - now apply Permutation_app_head.
  - rewrite !app_assoc. apply Permutation_app_tail, Permutation_app_comm.
  - now rewrite IH1.
Qed.

Lemma dict_get_In {V : Type} (d : list (string * V)) (k : string) :
  In k (map fst d) <-> dict_get d k <> None.
Proof.
  split.
  - intros Hin Hnone. induction d as [|[k' v'] d IH]; simpl in *; [contradiction|].
    destruct (String.eqb k' k) eqn:Hk; [discriminate|].
    destruct Hin as [->|Hin]; [now rewrite String.eqb_refl in Hk | now apply IH].
  - intros H. destruct (in_dec string_dec k (map fst d)) as [Hin|Hnot]; [exact Hin|].
    now apply dict_get_absent in Hnot.
Qed.

(** X4: for a dimension that names a string-valued attribute, the grouping
    loop of [breakdown] makes one group per key, in the order the keys are
    first seen in the batch; the group of a key holds the records with that
    key, in batch order. *)
Theorem group_queries_first_seen (dim : string) (qs : list QueryRecord)
    (Hdim : In dim string_dims) :
  group_queries dim qs =
  map (fun k => (k, members dim k qs)) (first_seen (map (group_key dim) qs)).
Proof.
  apply group_queries_snoc.
Qed.

Lemma group_queries_first_seen_witness :
  map fst (group_queries "warehouse_name" (queries Sample.loaded))
  = ["ANALYTICS_WH"; "ML_WH"; "BI_WH"].
Proof.
  rewrite (group_queries_first_seen "warehouse_name" (queries Sample.loaded)).
  - reflexivity.
  - simpl. tauto.
Defined.

(** X5: for a dimension that names a string-valued attribute,
    [breakdown(dim)] has exactly one row for each key some record of the
    batch has, and none for any other key; no key is the empty string; the
    row of a key counts the records with that key, and reports their
    credits added up in batch order and rounded to four decimals, the cost
    of these credits at the engine's price rounded to two decimals, and
    their bytes. *)
Theorem breakdown_lookup (dim : string) (e : CostEngine)
    (Hdim : In dim string_dims) :
  exists rows,
    value (breakdown dim e) = inr rows
    /\ NoDup (map fst rows)
    /\ ~ In "" (map fst rows)
    /\ (forall k,
          let mine := members dim k (queries e) in
          dict_get rows k =
          match mine with
          | [] => None
          | _ :: _ =>
              Some {| row_queries := List.length mine;
                      row_credits := Py.round (Py.sum (map credits_used mine)) 4;
                      row_cost_usd :=
                        Py.round (Py.sum (map credits_used mine) * credit_price e) 2;
                      row_bytes := Py.sumZ (map bytes_scanned mine) |}
          end).
Proof.
  destruct (breakdown_get dim e) as (rows & Hrows & Hnd & Hne & Hget).
  exists rows. repeat (split; [assumption|]).
  intros k mine. rewrite Hget, existsb_filter. fold (members dim k (queries e)).
  fold mine. destruct mine; reflexivity.
Qed.

Lemma breakdown_lookup_witness :
  exists rows,
    value (breakdown "user_name" Sample.loaded) = inr rows
    /\ dict_get rows "nobody" = None.
Proof.
  destruct (breakdown_lookup "user_name" Sample.loaded) as (rows & Hrows & _ & _ & Hget).
  - simpl. tauto.
  - exists rows. split; [exact Hrows|]. rewrite Hget. reflexivity.
Defined.

End GroupFacts.

(** ** The cost engine: anomalies and budget alerts *)

Module AnalysisFacts.

Import Warecost Spec SortFacts.

Local Open Scope Q_scope.

(** What a call of [anomalies] does, case by case. *)
Lemma anomalies_run (mean stdev : list Q -> exn + Q) (z : Q) (e : CostEngine) :
  anomalies mean stdev z e =
  (if (List.length (queries e) <? 3)%nat then inr []
   else match mean (map cost_usd (queries e)) with
        | inl exc => inl exc
        | inr mu =>
            match stdev (map cost_usd (queries e)) with
            | inl exc => inl exc
            | inr sd =>
                if Qeq_bool sd 0 then inr []
                else inr (Py.sorted (fun x => - an_z_score x)
                            (map (make_anomaly mu sd) (flagged mu sd z (queries e))))
            end
        end, e).
Proof.
  unfold anomalies, bind, get, eval, ret. cbv beta iota.
  destruct (List.length (queries e) <? 3)%nat; [reflexivity|].
  destruct (mean _) as [exc|mu]; [reflexivity|].
  destruct (stdev _) as [exc|sd]; [reflexivity|].
  now destruct (Qeq_bool sd 0).
Qed.

Lemma flagged_iff (mu sd z : Q) (qs : list QueryRecord) (q : QueryRecord) :
  In q (flagged mu sd z qs) <-> In q qs /\ z < (cost_usd q - mu) / sd.
Proof.
  unfold flagged. rewrite filter_In. now rewrite Qltb_lt.
Qed.




(** The documented statistics on three values or more: the mean is the sum
    over [n], the standard deviation the square root of the squared
    deviations from the mean over [n - 1]. *)
Lemma statistics_documented (sqrt : Q -> Q) (xs : list Q) :
  (3 <= List.length xs)%nat ->
  let n := inject_Z (Z.of_nat (List.length xs)) in
  let m := Py.sum xs / n in
  Py.mean xs = Some m
  /\ Py.stdev sqrt xs
     = Some (sqrt (Py.sum (map (fun x => (x - m) * (x - m)) xs)
                   / inject_Z (Z.of_nat (List.length xs - 1)))).
Proof.
  intros Hlen n m.
  assert (Hmean : Py.mean xs = Some m).
  { destruct xs; [simpl in Hlen; lia | reflexivity]. }
  split; [exact Hmean|].
  unfold Py.stdev, Py.variance. rewrite Hmean.
  destruct (List.length xs <? 2)%nat eqn:H2; [|reflexivity].
  apply Nat.ltb_lt in H2. lia.
Qed.

(** A [statistics.stdev] that raises makes [anomalies] raise the same. *)
Lemma anomalies_raise :
  exists exc,
    value (anomalies Sample.mean Sample.stdev_raising 1 Sample.loaded) = inl exc.
Proof.
  eexists. vm_compute. reflexivity.
Qed.

(** *** Budget alerts *)

(** The loop of [budget_alerts] keeps the entries at 80 percent or more, in
    order, and turns each into its alert. *)
Lemma check_budget_loop (rows : list (string * breakdown_row))
    (bs : list (string * Q)) :
  forall acc : list alert,
    fold_left (check_budget rows) bs acc =
    (acc ++ map (alert_of rows)
                (filter (fun entry => Qle_bool 80 (spend_pct rows entry)) bs))%list.
Proof.
  induction bs as [|[t l] bs IH]; intros acc; simpl.
  - now rewrite app_nil_r.
  - rewrite IH. unfold spend_pct at 2. simpl fst. simpl snd.
    destruct (Qle_bool 80 (pct_of (spent_of rows t) l)) eqn:H80.
    + rewrite <- app_assoc. reflexivity.
    + reflexivity.
Qed.

Lemma pct_of_cases (spent limit : Q) :
  (0 < limit -> pct_of spent limit = Py.round (spent / limit * 100) 1)
  /\ (limit <= 0 -> pct_of spent limit = 0).
Proof.
  unfold pct_of. split; intros H.
  - apply Qltb_lt in H. now rewrite H.
  - apply Qltb_ge in H. now rewrite H.
Qed.

(** What [budget_alerts] takes as the spend of a team is the spend of the
    team. *)
Lemma spent_of_team (e : CostEngine) (rows : list (string * breakdown_row)) (t : string) :
  value (breakdown "team" e) = inr rows -> spent_of rows t = team_spend e t.
Proof.
  intros Hrows.
  destruct (GroupFacts.breakdown_get "team" e) as (rows' & Hrows' & _ & _ & Hget).
  rewrite Hrows in Hrows'. injection Hrows' as <-.
  unfold spent_of, team_spend. rewrite Hget, GroupFacts.existsb_filter.
  fold (members "team" t (queries e)). rewrite GroupFacts.members_of_team.
  destruct (of_team t (queries e)); reflexivity.
Qed.

(** C3: [budget_alerts] returns normally.  The spend percentage is
    [spent / limit * 100] rounded to one decimal, and 0 when the limit is not
    positive.  A configured budget has an alert exactly when the percentage
    of the team's spend is at least 80.  Every alert is the alert of a
    configured budget; it shows the spend of its team (the cost of the
    credits of the team's records at the engine's price, 0 when the team has
    no record) and the percentage of that spend, which is at least 80; its
    status is ["OVER"] exactly when the percentage is at least 100 and
    ["WARNING"] exactly when it is below 100. *)
Theorem budget_alerts_thresholds (e : CostEngine) :
  exists alerts,
    value (budget_alerts e) = inr alerts
    /\ (forall spent limit,
          (0 < limit ->
           spend_percentage spent limit = Py.round (spent / limit * 100) 1)
          /\ (limit <= 0 -> spend_percentage spent limit = 0))
    /\ (forall t limit,
          In (t, limit) (budgets e) ->
          ((exists a, In a alerts /\ al_team a = t /\ al_budget a = limit)
           <-> 80 <= spend_percentage (team_spend e t) limit))
    /\ (forall a, In a alerts ->
          In (al_team a, al_budget a) (budgets e)
          /\ al_spent a = team_spend e (al_team a)
          /\ al_pct a = spend_percentage (team_spend e (al_team a)) (al_budget a)
          /\ 80 <= al_pct a
          /\ (al_status a = "OVER" <-> 100 <= al_pct a)
          /\ (al_status a = "WARNING" <-> al_pct a < 100)).
Proof.
  pose proof (spent_of_team e) as Hspent.
  rewrite EngineFacts.breakdown_run in Hspent. unfold value in Hspent.
  cbn [fst] in Hspent.
  rewrite EngineFacts.budget_alerts_run.
  set (rows := map _ (Py.sorted _ _)) in *.
  assert (Hs : forall t, spent_of rows t = team_spend e t)
    by (intros t; now apply Hspent).
  rewrite check_budget_loop. eexists. split; [reflexivity|].
  split; [intros spent limit; apply (pct_of_cases spent limit)|].
  simpl app. split.
  - intros t l Hin. rewrite <- Hs. split.
    + intros (a & Ha & Ht & Hl).
      apply in_map_iff in Ha as ([t' l'] & <- & Hf).
      simpl in Ht, Hl. subst t' l'.
      apply filter_In in Hf as [_ Hf]. now apply Qle_bool_iff in Hf.
    + intros H. exists (alert_of rows (t, l)). split; [|split; reflexivity].
      apply in_map, filter_In. split; [exact Hin|]. now apply Qle_bool_iff.
  - intros a Ha.
    apply in_map_iff in Ha as ([t l] & <- & Hf).
    apply filter_In in Hf as [Hin H80]. simpl.
    unfold spend_pct in *. simpl fst in *. simpl snd in *.
    rewrite Hs in *.
    change (pct_of (team_spend e t) l) with (spend_percentage (team_spend e t) l) in *.
    split; [exact Hin|]. split; [reflexivity|]. split; [reflexivity|].
    split; [now apply Qle_bool_iff|].
    destruct (Qle_bool 100 (spend_percentage (team_spend e t) l)) eqn:H100.
    + apply Qle_bool_iff in H100. split; split; intros H; try reflexivity;
        try assumption; try discriminate.
      now apply Qlt_not_le in H.
    + assert (Hlt : spend_percentage (team_spend e t) l < 100).
      { apply Qnot_le_lt. intros Hle. apply Qle_bool_iff in Hle. congruence. }
      split; split; intros H; try reflexivity; try assumption; try discriminate.
      now apply Qlt_not_le in Hlt.
Qed.

Lemma budget_alerts_thresholds_witness :
  exists alerts,
    value (budget_alerts Sample.budgeted) = inr alerts
    /\ forall a, In a alerts -> al_spent a = team_spend Sample.budgeted (al_team a).
Proof.
  destruct (budget_alerts_thresholds Sample.budgeted)
    as (alerts & Halerts & _ & _ & Hall).
  exists alerts. split; [exact Halerts|].
  intros a Ha. exact (proj1 (proj2 (Hall a Ha))).
Defined.

End AnalysisFacts.

(** ** The price of a credit *)

Module PriceFacts.

Import Warecost Spec.

Local Open Scope Q_scope.

(** C1: the per-record cost is computed at 3 per credit whatever price the
    engine was built with.  On an engine priced at 2 holding queries of 1, 1
    and 10 credits, the records cost 3, 3 and 30 where the configured price
    gives 2, 2 and 20; [anomalies] reports the third one at 30, while the
    team breakdown of the same engine, which multiplies by the configured
    price, reports 24 for the 12 credits. *)
Theorem cost_usd_ignores_credit_price :
  (forall q, cost_usd q = Py.round (credits_used q * 3) 4)
  /\ credit_price Sample.priced_two = 2
  /\ map (fun q => Qred (cost_usd q)) (queries Sample.priced_two) = [3; 3; 30]
  /\ map (fun q => Qred (Py.round (credits_used q * credit_price Sample.priced_two) 4))
         (queries Sample.priced_two) = [2; 2; 20]
  /\ (exists a, value (anomalies Sample.mean Sample.stdev 1 Sample.priced_two) = inr [a]
                /\ an_query_id a = "p3" /\ Qred (an_cost_usd a) = 30)
  /\ (exists row, value (breakdown "team" Sample.priced_two) = inr [("a", row)]
                  /\ Qred (row_credits row) = 12 /\ Qred (row_cost_usd row) = 24).
Proof.
  split; [reflexivity|].
  split; [reflexivity|].
  split; [vm_compute; reflexivity|].
  split; [vm_compute; reflexivity|].
  split; eexists; (split; [vm_compute; reflexivity|]); split; reflexivity.
Qed.

End PriceFacts.

(** ** The breakdown handler *)

Module ApiFacts.

Import Warecost Spec Api.

Local Open Scope Q_scope.

Lemma is_valid_dim_In (dimension : string) :
  is_valid_dim dimension = true <-> In dimension valid_dims.
Proof.
  unfold is_valid_dim. rewrite existsb_exists. split.
  - intros (d & Hin & Heq). apply String.eqb_eq in Heq. now subst.
  - intros Hin. exists dimension. split; [exact Hin | apply String.eqb_refl].
Qed.

(** Building the engine from well-formed records succeeds, and the engine
    built has them as its batch. *)
Lemma build_engine_well_formed (req : AnalyzeRequest) :
  forallb well_formed (req_queries req) = true ->
  exists engine, _build_engine req = Ok engine.
Proof.
  intros Hwf. unfold _build_engine.
  destruct (EngineFacts.load_well_formed (req_queries req)
              (CostEngine_init (req_credit_price req)) Hwf) as (qs & _ & ->).
  eexists. reflexivity.
Qed.

(** Building the engine from records of which one is malformed ends in a
    400 response. *)
Lemma build_engine_malformed (req : AnalyzeRequest) :
  forallb well_formed (req_queries req) = false ->
  exists exc, _build_engine req =
              Raised {| status_code := 400; http_detail := Invalid_query_data exc |}.
Proof.
  intros Hwf. unfold _build_engine, load, bind, eval.
  destruct (EngineFacts.build_records_malformed (req_queries req) Hwf) as [msg ->].
  eexists. reflexivity.
Qed.

(** C7: a dimension outside the five names is answered by a 400 naming it,
    whatever the request body, well formed or not: the body is not looked
    at and no engine is built.  For each of the five names the handler
    builds the engine and answers with the engine's breakdown by that name;
    with well-formed records this is a normal response. *)
Theorem breakdown_dimension_gate (dimension : string) (req : AnalyzeRequest) :
  let listed := In dimension ["team"; "warehouse_name"; "dbt_model"; "dag_id"; "user_name"] in
  (~ listed ->
   Api.breakdown dimension req =
   Raised {| status_code := 400; http_detail := Invalid_dimension dimension |})
  /\ (listed ->
      Api.breakdown dimension req =
      then_ (_build_engine req) (fun engine =>
      then_ (call (Warecost.breakdown dimension) engine) (fun rows =>
      Ok (dimension, rows))))
  /\ (listed -> forallb well_formed (req_queries req) = true ->
      exists engine rows,
        _build_engine req = Ok engine
        /\ value (Warecost.breakdown dimension engine) = inr rows
        /\ Api.breakdown dimension req = Ok (dimension, rows)).
Proof.
  intros listed. subst listed. change [_; _; _; _; _] with valid_dims.
  assert (Hgate : In dimension valid_dims ->
                  Api.breakdown dimension req =
                  then_ (_build_engine req) (fun engine =>
                  then_ (call (Warecost.breakdown dimension) engine) (fun rows =>
                  Ok (dimension, rows)))).
  { intros Hin. apply is_valid_dim_In in Hin.
    unfold Api.breakdown. now rewrite Hin. }
  split; [|split].
  - intros Hnot. unfold Api.breakdown.
    destruct (is_valid_dim dimension) eqn:Hv; [|reflexivity].
    apply is_valid_dim_In in Hv. contradiction.
  - exact Hgate.
  - intros Hin Hwf.
    destruct (build_engine_well_formed req Hwf) as [engine Hengine].
    exists engine. eexists. split; [exact Hengine|].
    split; [rewrite EngineFacts.breakdown_run; reflexivity|].
    rewrite (Hgate Hin), Hengine. reflexivity.
Qed.

Lemma breakdown_dimension_gate_witness :
  Api.breakdown "invalid" (Sample.request Sample.SAMPLE) =
  Raised {| status_code := 400; http_detail := Invalid_dimension "invalid" |}
  /\ Api.breakdown "credits_used" (Sample.request [Sample.missing_field]) =
     Raised {| status_code := 400; http_detail := Invalid_dimension "credits_used" |}
  /\ exists engine rows,
       _build_engine (Sample.request Sample.SAMPLE) = Ok engine
       /\ value (Warecost.breakdown "dag_id" engine) = inr rows
       /\ Api.breakdown "dag_id" (Sample.request Sample.SAMPLE) = Ok ("dag_id", rows).
Proof.
  split; [|split].
  - apply (proj1 (breakdown_dimension_gate "invalid" (Sample.request Sample.SAMPLE))).
    simpl. intros H. repeat (destruct H as [H|H]; [discriminate|]). exact H.
  - apply (proj1 (breakdown_dimension_gate "credits_used"
                    (Sample.request [Sample.missing_field]))).
    simpl. intros H. repeat (destruct H as [H|H]; [discriminate|]). exact H.
  - apply (proj2 (proj2 (breakdown_dimension_gate "dag_id"
                           (Sample.request Sample.SAMPLE)))).
    + simpl. tauto.
    + reflexivity.
Defined.

End ApiFacts.

(** ** The breakdown by team *)

Module BreakdownFacts.

Import Warecost Spec SortFacts.

Local Open Scope Q_scope.

(** C4 (as stated) fails: with two queries of 0.00004 credits in two teams,
    each group reports 0.0 credits, and the batch has 0.00008. *)
Lemma reported_credits_differ :
  exists rows,
    value (breakdown "team" Sample.small_credits) = inr rows
    /\ ~ reported_credits rows == total_credits (queries Sample.small_credits).
Proof.
  eexists. split; [reflexivity|].
  intros H. vm_compute in H. discriminate.
Qed.

(** C4 (amended): [breakdown("team")] returns normally, with one row per
    team key that some record has, and no key twice.  Grouping is a total
    partition of the batch: every record is in the group of exactly one key,
    its team, or ["unattributed"] when it has no team; the query counts of
    the rows add up to the size of the batch.  The credits a row reports
    are the credits of the records of its group, added up in batch order and
    rounded to four decimals; nothing is claimed about the sum of these
    rounded figures. *)
Theorem breakdown_team_partition (e : CostEngine) :
  exists rows,
    value (breakdown "team" e) = inr rows
    /\ NoDup (map fst rows)
    /\ (forall k, In k (map fst rows) <-> exists q, In q (queries e) /\ team_key q = k)
    /\ (forall q k, In q (queries e) ->
          (In q (of_team k (queries e)) <-> k = team_key q))
    /\ (forall q, In q (queries e) ->
          team_key q = if Py.truthy (team q) then team q else "unattributed")
    /\ Permutation (List.concat (map (fun kr => of_team (fst kr) (queries e)) rows))
                   (queries e)
    /\ list_sum (map (fun kr => row_queries (snd kr)) rows) = List.length (queries e)
    /\ (forall k row, In (k, row) rows ->
          row_queries row = List.length (of_team k (queries e))
          /\ row_credits row
             = Py.round (Py.sum (map credits_used (of_team k (queries e)))) 4).
Proof.
  destruct (GroupFacts.breakdown_get "team" e) as (rows & Hrows & Hnd & _ & Hget).
  destruct (GroupFacts.rows_counts "team" e) as (rows' & Hrows' & Hcount & _).
  rewrite Hrows in Hrows'. injection Hrows' as <-.
  exists rows. split; [exact Hrows|]. split; [exact Hnd|].
  assert (Hkey : forall k,
             In k (map fst rows) <-> exists q, In q (queries e) /\ team_key q = k).
  { intros k. rewrite GroupFacts.dict_get_In, Hget.
    destruct (existsb _ (queries e)) eqn:Hex.
    - split; [intros _|discriminate].
      apply existsb_exists in Hex as (q & Hq & Heq).
      apply String.eqb_eq in Heq. now exists q.
    - split; [congruence|]. intros (q & Hq & Heq). exfalso.
      assert (Htrue : existsb (fun q => String.eqb (group_key "team" q) k) (queries e)
                      = true).
      { apply existsb_exists. exists q. split; [exact Hq|]. now apply String.eqb_eq. }
      congruence. }
  split; [exact Hkey|]. split.
  { intros q k Hq. unfold of_team. rewrite filter_In, String.eqb_eq.
    split; [intros [_ H]; now symmetry | intros ->; now split]. }
  split; [reflexivity|]. split.
  { destruct (GroupFacts.breakdown_rows "team" e) as (ordered & Hrun & _ & Hperm).
    rewrite Hrun in Hrows. unfold value in Hrows. cbn [fst] in Hrows.
    injection Hrows as <-.
    destruct (GroupFacts.group_queries_partition "team" (queries e)) as (Hpart & _ & _).
    rewrite map_map. cbn [fst].
    apply Permutation_trans
      with (List.concat (map snd (group_queries "team" (queries e))));
      [|exact Hpart].
    apply GroupFacts.Permutation_concat.
    apply Permutation_trans
      with (map (fun g => of_team (fst g) (queries e))
                (group_queries "team" (queries e)));
      [exact (Permutation_map _ Hperm)|].
    rewrite GroupFacts.group_queries_snoc, !map_map. cbn [fst snd].
    reflexivity. }
  split; [exact Hcount|].
  intros k row Hin.
  pose proof (GroupFacts.dict_get_present rows k row Hnd Hin) as Hrow.
  rewrite Hget in Hrow.
  destruct (existsb _ (queries e)); [|discriminate].
  injection Hrow as <-. split; reflexivity.
Qed.

Lemma breakdown_team_partition_witness :
  exists rows,
    value (breakdown "team" Sample.loaded) = inr rows
    /\ forall row, In ("analytics", row) rows -> row_queries row = 2%nat.
Proof.
  destruct (breakdown_team_partition Sample.loaded)
    as (rows & Hrows & _ & _ & _ & _ & _ & _ & Hrow).
  exists rows. split; [exact Hrows|].
  intros row Hin. exact (proj1 (Hrow "analytics" row Hin)).
Defined.

End BreakdownFacts.

(** ** The tests of the repository, run on the model *)

Module TestFacts.

Import Warecost Spec.

Local Open Scope Q_scope.

Example test_query_record_team_from_tag :
  exists q rest,
    queries Sample.loaded = q :: rest
    /\ team q = "analytics" /\ dbt_model q = Some "stg_orders"
    /\ dag_id q = None /\ cost_usd q == 75 # 10.
Proof.
  do 2 eexists. split; [reflexivity|]. repeat split; reflexivity.
Qed.

Example test_teams_of_sample :
  map team (queries Sample.loaded) = ["analytics"; "ml"; "analytics"; "unattributed"].
Proof. reflexivity. Qed.

Example test_cost_engine_breakdown_by_team :
  exists rows row,
    value (breakdown "team" Sample.loaded) = inr rows
    /\ dict_get rows "analytics" = Some row
    /\ row_queries row = 2%nat /\ row_cost_usd row == 525 # 10.
Proof.
  do 2 eexists. split; [reflexivity|]. split; [reflexivity|].
  split; reflexivity.
Qed.

Example test_anomaly_detection_catches_spike :
  exists a rest,
    value (anomalies Sample.mean Sample.stdev 1 Sample.loaded) = inr (a :: rest)
    /\ an_query_id a = "q3".
Proof.
  do 2 eexists. split; [vm_compute; reflexivity | reflexivity].
Qed.

Example test_anomaly_none_when_uniform :
  value (anomalies Sample.mean Sample.stdev 2
           {| credit_price := 3;
              queries := map (fun qid => Sample.record qid "analytics_bob" "team=analytics" 1)
                             ["u0"; "u1"; "u2"; "u3"; "u4"];
              budgets := [] |}) = inr [].
Proof. vm_compute. reflexivity. Qed.

Example test_budget_alert_over :
  exists a,
    value (budget_alerts Sample.budgeted) = inr [a]
    /\ al_status a = "OVER" /\ 100 < al_pct a.
Proof.
  eexists. split; [vm_compute; reflexivity|]. split; reflexivity.
Qed.

Example test_budget_no_alert_when_under :
  value (budget_alerts (engine_after (set_budget "ml" 100 Sample.loaded))) = inr [].
Proof. vm_compute. reflexivity. Qed.

Example test_summary_totals :
  exists s,
    value (summary Sample.mean Sample.stdev Sample.loaded) = inr s
    /\ total_queries s = 4%nat /\ total_cost_usd s == 537 # 10.
Proof.
  eexists. split; [vm_compute; reflexivity|]. split; reflexivity.
Qed.

Example test_api_invalid_dimension :
  Api.breakdown "invalid" (Sample.request Sample.SAMPLE) =
  Api.Raised {| Api.status_code := 400;
                Api.http_detail := Api.Invalid_dimension "invalid" |}.
Proof. reflexivity. Qed.

End TestFacts.

(** ** More on the record normaliser *)

Module ExtractFacts.

Import Warecost Spec PyFacts.

Lemma occurs_before_semicolon (s : string) :
  occurs ";" (before_first ";" s) = false.
Proof.
  induction s as [|c s IH]; [reflexivity|].
  cbn [before_first prefix].
  destruct (ascii_dec ";" c) as [Heq|Hne]; [now destruct s|].
  cbn [occurs]. rewrite IH, orb_false_r.
  apply Ascii.eqb_neq. congruence.
Qed.

Lemma occurs_lstrip (c : ascii) (s : string) :
  occurs c s = false -> occurs c (Py.lstrip s) = false.
Proof.
  induction s as [|x s IH]; [reflexivity|].
  cbn [occurs Py.lstrip]. intros H. apply orb_false_elim in H as [Hx Hs].
  destruct (Py.is_space x); [now apply IH|].
  cbn [occurs]. now rewrite Hx, Hs.
Qed.

Lemma occurs_rstrip (c : ascii) (s : string) :
  occurs c s = false -> occurs c (Py.rstrip s) = false.
Proof.
  induction s as [|x s IH]; [reflexivity|].
  cbn [occurs Py.rstrip]. intros H. apply orb_false_elim in H as [Hx Hs].
  specialize (IH Hs).
  destruct (Py.rstrip s) as [|y r].
  - destruct (Py.is_space x); [reflexivity|].
    cbn [occurs]. now rewrite Hx.
  - cbn [occurs] in *. now rewrite Hx, IH.
Qed.

Lemma lstrip_first (s : string) : not_space (first_char (Py.lstrip s)).
Proof.
  induction s as [|x s IH]; [exact I|].
  cbn [Py.lstrip]. destruct (Py.is_space x) eqn:Hx; [exact IH | exact Hx].
Qed.

Lemma rstrip_first (s : string) :
  not_space (first_char s) -> not_space (first_char (Py.rstrip s)).
Proof.
  destruct s as [|x s]; [intros _; exact I|].
  cbn [first_char not_space Py.rstrip]. intros Hx.
  destruct (Py.rstrip s); [rewrite Hx|]; exact Hx.
Qed.

Lemma rstrip_last (s : string) : not_space (last_char (Py.rstrip s)).
Proof.
  induction s as [|x s IH]; [exact I|].
  cbn [Py.rstrip]. destruct (Py.rstrip s) as [|y r].
  - destruct (Py.is_space x) eqn:Hx; [exact I | exact Hx].
  - exact IH.
Qed.

Lemma strip_trimmed (s : string) : trimmed (Py.strip s).
Proof.
  split; [apply rstrip_first, lstrip_first | apply rstrip_last].
Qed.

(** X1: [_extract] answers [None] exactly when the prefix does not occur in
    the tag; a value it returns contains no [;] and has no white space at
    either end. *)
Theorem extract_shape (q : QueryRecord) (prefix : string) :
  (_extract q prefix = None <-> Py.contains prefix (query_tag q) = false)
  /\ (forall v, _extract q prefix = Some v ->
        Py.contains prefix (query_tag q) = true
        /\ occurs ";" v = false
        /\ trimmed v).
Proof.
  unfold _extract.
  destruct (Py.contains prefix (query_tag q)); split;
    try (split; congruence); try discriminate.
  intros v Hv. injection Hv as <-.
  split; [reflexivity|].
  rewrite (nth_of_item _ 0 _ "" (split_item0 ";" _ ltac:(discriminate))).
  split; [|apply strip_trimmed].
  apply occurs_rstrip, occurs_lstrip, occurs_before_semicolon.
Qed.

Lemma extract_shape_witness :
  Py.contains "dag=" (query_tag (Sample.record "q" "u" "dag= daily ;x=1" 1)) = true
  /\ occurs ";" "daily" = false
  /\ trimmed "daily".
Proof.
  apply (proj2 (extract_shape (Sample.record "q" "u" "dag= daily ;x=1" 1) "dag=")).
  reflexivity.
Defined.

Lemma before_first_empty (sep s : string) :
  before_first sep s = "" -> s = "" \/ prefix sep s = true.
Proof.
  destruct s as [|c s]; [now left|].
  cbn [before_first]. destruct (prefix sep (String c s)); [now right | discriminate].
Qed.

(** The team in terms of first occurrences. *)
Lemma team_value (q : QueryRecord) :
  team q =
  match after_first "team=" (query_tag q) with
  | Some t => if Py.truthy (value_in "team=" t) then value_in "team=" t
              else user_fallback q
  | None => user_fallback q
  end.
Proof.
  unfold team.
  rewrite NormalizerFacts.fallback_user, NormalizerFacts.extract_value_in by discriminate.
  destruct (after_first "team=" (query_tag q)); reflexivity.
Qed.

(** Where the specified wording and the code agree: [team=] occurs once
    and its value is not empty. *)
Lemma team_as_specified_agrees (q : QueryRecord) (t : string) :
  after_first "team=" (query_tag q) = Some t ->
  after_first "team=" t = None ->
  Py.truthy (Py.strip (before_first ";" t)) = true ->
  team q = team_as_specified q.
Proof.
  intros Hfirst Honce Hvalue.
  rewrite team_value. unfold team_as_specified, value_in.
  rewrite Hfirst, (before_first_absent _ _ Honce). now rewrite Hvalue.
Qed.

(** X2: the team is never the empty string unless the user name begins
    with an underscore. *)
Theorem team_empty_only_underscore (q : QueryRecord) :
  team q = "" -> prefix "_" (user_name q) = true.
Proof.
  rewrite team_value.
  assert (Hfb : user_fallback q = "" -> prefix "_" (user_name q) = true).
  { unfold user_fallback.
    destruct (after_first "_" (user_name q)) eqn:Ha; [|discriminate].
    intros H. apply before_first_empty in H as [H|H]; [|exact H].
    rewrite H in Ha. discriminate. }
  destruct (after_first "team=" (query_tag q)); [|exact Hfb].
  destruct (value_in "team=" s) eqn:Hv; [exact Hfb | discriminate].
Qed.

Lemma team_empty_only_underscore_witness :
  prefix "_" (user_name (Sample.record "q" "_bob" "team= ;" 1)) = true.
Proof.
  apply (team_empty_only_underscore (Sample.record "q" "_bob" "team= ;" 1)).
  reflexivity.
Defined.

(** X3: a raw record without [query_tag] (or with an empty one) is accepted
    when its other fields are there; the record built has no model and no
    pipeline id, and its team is the user-name fallback. *)
Theorem untagged_record (r : raw_record) :
  well_formed r = true ->
  raw_query_tag r = None \/ raw_query_tag r = Some "" ->
  exists q,
    QueryRecord_init r = inr q
    /\ Some (user_name q) = raw_user_name r
    /\ Some (credits_used q) = raw_credits_used r
    /\ query_tag q = ""
    /\ dbt_model q = None
    /\ dag_id q = None
    /\ team q = user_fallback q.
Proof.
  intros Hwf Htag.
  unfold well_formed, QueryRecord_init in *.
  destruct r as [a b c d e f g h tag other]; simpl in *.
  destruct other; [|discriminate].
  destruct a, b, c, d, e, f, g, h; try discriminate.
  eexists. split; [reflexivity|].
  assert (Hempty : match tag with Some t => t | None => "" end = "").
  { destruct Htag as [->| ->]; reflexivity. }
  rewrite team_value.
  unfold dbt_model, dag_id, _extract. simpl. rewrite Hempty.
  repeat split; reflexivity.
Qed.

Lemma untagged_record_witness :
  exists q,
    QueryRecord_init (Sample.raw "q4" "SELECT * FROM products" "looker" "BI_WH"
                        (1 # 10) 10000 200 "2024-01-15T13:00:00" "") = inr q
    /\ team q = "unattributed".
Proof.
  destruct (untagged_record (Sample.raw "q4" "SELECT * FROM products" "looker" "BI_WH"
                               (1 # 10) 10000 200 "2024-01-15T13:00:00" ""))
    as (q & Hq & _ & _ & _ & _ & _ & Hteam).
  - reflexivity.
  - right. reflexivity.
  - exists q. split; [exact Hq|].
    rewrite Hteam. injection Hq as <-. reflexivity.
Defined.

End ExtractFacts.

(** ** More on the breakdown: counts and order *)

Module OrderFacts.

Import Warecost Spec SortFacts.

Local Open Scope Q_scope.

(** X6: for a dimension that names a string-valued attribute, the query
    counts of the rows of a breakdown add up to the size of the batch, and
    their bytes to the bytes of the batch. *)
Theorem breakdown_counts (dim : string) (e : CostEngine)
    (Hdim : In dim string_dims) :
  exists rows,
    value (breakdown dim e) = inr rows
    /\ list_sum (map (fun kr => row_queries (snd kr)) rows)
       = List.length (queries e)
    /\ Py.sumZ (map (fun kr => row_bytes (snd kr)) rows)
       = Py.sumZ (map bytes_scanned (queries e)).
Proof.
  apply GroupFacts.rows_counts.
Qed.

Lemma breakdown_counts_witness :
  exists rows,
    value (breakdown "dbt_model" Sample.loaded) = inr rows
    /\ list_sum (map (fun kr => row_queries (snd kr)) rows) = 4%nat.
Proof.
  destruct (breakdown_counts "dbt_model" Sample.loaded) as (rows & Hrows & Hcount & _).
  - simpl. tauto.
  - exists rows. split; [exact Hrows | exact Hcount].
Defined.

(** *** Rounding keeps the order *)







End OrderFacts.

(** ** More on anomalies *)

Module AnomalyFacts.

Import Warecost Spec SortFacts AnalysisFacts.

Local Open Scope Q_scope.

(** The entries of a list [anomalies] returned. *)
Lemma anomalies_returned (mean stdev : list Q -> exn + Q) (z : Q) (e : CostEngine)
    (out : list anomaly) :
  value (anomalies mean stdev z e) = inr out ->
  out = []
  \/ exists mu sd,
       mean (map cost_usd (queries e)) = inr mu
       /\ stdev (map cost_usd (queries e)) = inr sd
       /\ ~ sd == 0
       /\ Permutation out (map (make_anomaly mu sd) (flagged mu sd z (queries e))).
Proof.
  rewrite anomalies_run. unfold value, fst.
  destruct (List.length (queries e) <? 3)%nat; [intros H; injection H as <-; now left|].
  destruct (mean _) as [exc|mu]; [discriminate|].
  destruct (stdev _) as [exc|sd]; [discriminate|].
  destruct (Qeq_bool sd 0) eqn:Hsd; intros H; injection H as <-; [now left|].
  right. exists mu, sd. repeat split; try reflexivity.
  - now apply Qeq_bool_neq.
  - apply sorted_permutation.
Qed.

Lemma ratio_sign (a sd : Q) : 0 < sd -> 0 < a / sd -> 0 < a.
Proof.
  intros Hsd H.
  assert (Ha : a == a / sd * sd) by (field; lra).
  rewrite Ha. now apply Qmult_lt_0_compat.
Qed.

(** X9: with a threshold that is not negative, and a standard deviation
    that is never negative, every entry of a list that [anomalies] returns
    costs more than the mean [statistics.mean] gave: a query at or below the
    mean is never reported. *)
Theorem anomalies_above_mean (mean stdev : list Q -> exn + Q) (z : Q) (e : CostEngine)
    (Hz : 0 <= z) (Hstdev : forall xs sd, stdev xs = inr sd -> 0 <= sd)
    (out : list anomaly) (Hout : value (anomalies mean stdev z e) = inr out) :
  forall a, In a out ->
    exists mu, mean (map cost_usd (queries e)) = inr mu /\ mu < an_cost_usd a.
Proof.
  intros a Ha.
  destruct (anomalies_returned mean stdev z e out Hout)
    as [->|(mu & sd & Hmu & Hsd & Hnz & Hperm)]; [contradiction|].
  exists mu. split; [exact Hmu|].
  apply (Permutation_in _ Hperm) in Ha.
  apply in_map_iff in Ha as (q & <- & Hq).
  apply flagged_iff in Hq as [_ Hq]. simpl.
  assert (Hpos : 0 < sd).
  { pose proof (Hstdev _ _ Hsd) as Hge.
    apply Qle_lteq in Hge as [Hlt|Heq]; [exact Hlt|].
    exfalso. apply Hnz. now symmetry. }
  assert (Hratio : 0 < (cost_usd q - mu) / sd) by (now apply Qle_lt_trans with z).
  apply (ratio_sign _ _ Hpos) in Hratio. lra.
Qed.

Lemma sqrt_down_nonneg (x : Q) : 0 <= Sample.sqrt_down x.
Proof.
  unfold Sample.sqrt_down, Qle. simpl.
  apply Z.mul_nonneg_nonneg; [apply Z.sqrt_nonneg | lia].
Qed.

Lemma sample_stdev_nonneg (xs : list Q) (sd : Q) :
  Sample.stdev xs = inr sd -> 0 <= sd.
Proof.
  unfold Sample.stdev, Py.stdev. destruct (Py.variance xs); simpl; [|discriminate].
  intros H. injection H as <-. apply sqrt_down_nonneg.
Qed.

Lemma anomalies_above_mean_witness :
  exists out,
    value (anomalies Sample.mean Sample.stdev 1 Sample.loaded) = inr out
    /\ forall a, In a out ->
         exists mu, Sample.mean (map cost_usd (queries Sample.loaded)) = inr mu
                    /\ mu < an_cost_usd a.
Proof.
  destruct (value (anomalies Sample.mean Sample.stdev 1 Sample.loaded))
    as [exc|out] eqn:Hout; [vm_compute in Hout; discriminate|].
  exists out. split; [reflexivity|].
  apply (anomalies_above_mean Sample.mean Sample.stdev 1 Sample.loaded).
  - unfold Qle. simpl. lia.
  - exact sample_stdev_nonneg.
  - exact Hout.
Defined.

(** X10: raising the threshold never adds an entry and never changes
    whether [anomalies] raises: if it raises at a threshold it raises the
    same at every lower one, and what it returns at a threshold is among
    what it returns at every lower one. *)
Theorem anomalies_threshold_monotone (mean stdev : list Q -> exn + Q) (z1 z2 : Q)
    (e : CostEngine) (Hz : z1 <= z2) :
  (forall exc, value (anomalies mean stdev z2 e) = inl exc ->
               value (anomalies mean stdev z1 e) = inl exc)
  /\ (forall high, value (anomalies mean stdev z2 e) = inr high ->
        exists low,
          value (anomalies mean stdev z1 e) = inr low
          /\ forall a, In a high -> In a low).
Proof.
  rewrite !anomalies_run. unfold value, fst.
  destruct (List.length (queries e) <? 3)%nat.
  { split; [discriminate|]. intros high H. injection H as <-.
    exists []. split; [reflexivity | intros a []]. }
  destruct (mean _) as [exc0|mu].
  { split; [trivial | discriminate]. }
  destruct (stdev _) as [exc0|sd].
  { split; [trivial | discriminate]. }
  destruct (Qeq_bool sd 0).
  { split; [discriminate|]. intros high H. injection H as <-.
    exists []. split; [reflexivity | intros a []]. }
  split; [discriminate|]. intros high H. injection H as <-.
  eexists. split; [reflexivity|].
  intros a Ha.
  apply (Permutation_in _ (sorted_permutation _ _)) in Ha.
  apply in_map_iff in Ha as (q & <- & Hq).
  apply flagged_iff in Hq as [Hin Hq].
  apply (Permutation_in _ (Permutation_sym (sorted_permutation _ _))), in_map.
  apply flagged_iff. split; [exact Hin | now apply Qle_lt_trans with z2].
Qed.

Lemma anomalies_threshold_monotone_witness :
  exists high low,
    value (anomalies Sample.mean Sample.stdev 2 Sample.loaded) = inr high
    /\ value (anomalies Sample.mean Sample.stdev 1 Sample.loaded) = inr low
    /\ forall a, In a high -> In a low.
Proof.
  destruct (value (anomalies Sample.mean Sample.stdev 2 Sample.loaded))
    as [exc|high] eqn:Hhigh; [vm_compute in Hhigh; discriminate|].
  assert (Hz : 1 <= 2) by (unfold Qle; simpl; lia).
  destruct (proj2 (anomalies_threshold_monotone Sample.mean Sample.stdev 1 2
                     Sample.loaded Hz) high Hhigh) as (low & Hlow & Hsub).
  exists high, low. split; [reflexivity|]. split; assumption.
Defined.

End AnomalyFacts.

(** ** More on the engine and the handlers *)

Module ServiceFacts.

Import Warecost Spec Api.

Local Open Scope Q_scope.

(** *** Budgets of teams without queries *)

Lemma pct_of_nothing (limit : Q) : Qle_bool 80 (pct_of 0 limit) = false.
Proof.
  unfold pct_of. destruct (Py.Qltb 0 limit); [|reflexivity].
  unfold Py.round. rewrite (GroupFacts.round_half_even_integer _ 0).
  - reflexivity.
  - unfold Qdiv. ring.
Qed.

(** X13: a budget of a team that has no query in the batch never gives an
    alert, whatever its limit. *)
Theorem budget_without_queries (e : CostEngine) (t : string)
    (Hnone : forall q, In q (queries e) -> group_key "team" q <> t) :
  exists alerts,
    value (budget_alerts e) = inr alerts
    /\ forall a, In a alerts -> al_team a <> t.
Proof.
  destruct (GroupFacts.breakdown_get "team" e) as (rows & Hrows & _ & _ & Hget).
  rewrite EngineFacts.breakdown_run in Hrows. unfold value in Hrows.
  cbn [fst] in Hrows. injection Hrows as Hrows.
  rewrite EngineFacts.budget_alerts_run, Hrows, AnalysisFacts.check_budget_loop.
  eexists. split; [reflexivity|].
  intros a Ha. simpl in Ha.
  apply in_map_iff in Ha as ([t' l] & <- & Hf).
  apply filter_In in Hf as [_ H80]. simpl. intros ->.
  unfold spend_pct, spent_of in H80. simpl in H80.
  rewrite Hget in H80.
  destruct (existsb _ (queries e)) eqn:Hex.
  - apply existsb_exists in Hex as (q & Hq & Heq).
    apply String.eqb_eq in Heq. now apply (Hnone q Hq).
  - rewrite pct_of_nothing in H80. discriminate.
Qed.

Lemma budget_without_queries_witness :
  exists alerts,
    value (budget_alerts (engine_after (set_budget "finance" 1 Sample.loaded)))
    = inr alerts
    /\ forall a, In a alerts -> al_team a <> "finance".
Proof.
  apply (budget_without_queries (engine_after (set_budget "finance" 1 Sample.loaded))).
  intros q Hq. simpl in Hq.
  destruct Hq as [<-|[<-|[<-|[<-|[]]]]]; vm_compute; discriminate.
Defined.

(** X14: setting a budget changes no breakdown and no anomaly report. *)
Theorem budgets_leave_reads (mean stdev : list Q -> exn + Q) (t dim : string)
    (amount z : Q) (e : CostEngine) :
  value (Warecost.breakdown dim (engine_after (set_budget t amount e)))
  = value (Warecost.breakdown dim e)
  /\ value (anomalies mean stdev z (engine_after (set_budget t amount e)))
     = value (anomalies mean stdev z e).
Proof.
  rewrite !EngineFacts.breakdown_run, !AnalysisFacts.anomalies_run.
  split; reflexivity.
Qed.

(** *** [summary] *)

(** [summary] makes its report from the four narrower calls, and raises
    when [anomalies] does. *)
Lemma summary_value (mean stdev : list Q -> exn + Q) (e : CostEngine) :
  exists teams warehouses alerts,
    value (Warecost.breakdown "team" e) = inr teams
    /\ value (Warecost.breakdown "warehouse_name" e) = inr warehouses
    /\ value (budget_alerts e) = inr alerts
    /\ value (summary mean stdev e) =
       match value (anomalies mean stdev default_z_thresh e) with
       | inl exc => inl exc
       | inr anoms =>
           inr {| total_queries := List.length (queries e);
                  total_credits_field := Py.round (total_credits (queries e)) 4;
                  total_cost_usd :=
                    Py.round (total_credits (queries e) * credit_price e) 2;
                  by_team := teams;
                  by_warehouse := warehouses;
                  anomalies_field := anoms;
                  budget_alerts_field := alerts |}
       end.
Proof.
  unfold summary.
  cbv beta iota zeta delta [bind get ret Warecost.breakdown budget_alerts].
  rewrite AnalysisFacts.anomalies_run. unfold value. cbn [fst].
  do 3 eexists. repeat split.
  destruct (List.length (queries e) <? 3)%nat; [reflexivity|].
  destruct (mean _); [reflexivity|].
  destruct (stdev _) as [|sd]; [reflexivity|].
  destruct (Qeq_bool sd 0); reflexivity.
Qed.

(** X15: [summary] raises exactly when [anomalies] at the default threshold
    2.0 raises, and then the same exception.  Otherwise it returns a report
    whose parts are what [breakdown("team")], [breakdown("warehouse_name")],
    [anomalies(2.0)] and [budget_alerts()] return on the same engine; its
    query total is the size of the batch, and is the sum of the query counts
    of its team rows and of its warehouse rows; its credit total is the sum
    of all credits rounded to four decimals, and its cost total that sum at
    the engine's price rounded to two decimals. *)
Theorem summary_composition (mean stdev : list Q -> exn + Q) (e : CostEngine) :
  (forall exc, value (anomalies mean stdev 2 e) = inl exc ->
               value (summary mean stdev e) = inl exc)
  /\ (forall anoms, value (anomalies mean stdev 2 e) = inr anoms ->
        exists s,
          value (summary mean stdev e) = inr s
          /\ value (Warecost.breakdown "team" e) = inr (by_team s)
          /\ value (Warecost.breakdown "warehouse_name" e) = inr (by_warehouse s)
          /\ anomalies_field s = anoms
          /\ value (budget_alerts e) = inr (budget_alerts_field s)
          /\ total_queries s = List.length (queries e)
          /\ list_sum (map (fun kr => row_queries (snd kr)) (by_team s))
             = total_queries s
          /\ list_sum (map (fun kr => row_queries (snd kr)) (by_warehouse s))
             = total_queries s
          /\ total_credits_field s
             = Py.round (Py.sum (map credits_used (queries e))) 4
          /\ total_cost_usd s
             = Py.round (Py.sum (map credits_used (queries e)) * credit_price e) 2).
Proof.
  destruct (summary_value mean stdev e)
    as (teams & warehouses & alerts & Ht & Hw & Hal & Hs).
  change default_z_thresh with 2 in Hs.
  split.
  - intros exc Hexc. now rewrite Hs, Hexc.
  - intros anoms Han. rewrite Han in Hs.
    eexists. split; [exact Hs|]. simpl.
    repeat (split; [first [assumption | reflexivity]|]).
    destruct (GroupFacts.rows_counts "team" e) as (rows & Hrows & Hcount & _).
    destruct (GroupFacts.rows_counts "warehouse_name" e) as (rows' & Hrows' & Hcount' & _).
    rewrite Ht in Hrows. rewrite Hw in Hrows'.
    injection Hrows as <-. injection Hrows' as <-.
    repeat (split; [first [assumption | reflexivity]|]). reflexivity.
Qed.

Lemma summary_composition_witness :
  exists s,
    value (summary Sample.mean Sample.stdev Sample.loaded) = inr s
    /\ total_queries s = 4%nat.
Proof.
  destruct (value (anomalies Sample.mean Sample.stdev 2 Sample.loaded))
    as [exc|anoms] eqn:Han; [vm_compute in Han; discriminate|].
  destruct (proj2 (summary_composition Sample.mean Sample.stdev Sample.loaded) anoms Han)
    as (s & Hs & _ & _ & _ & _ & Hn & _).
  exists s. split; [exact Hs | exact Hn].
Defined.

(** *** [load] *)

Lemma init_built_from (r : raw_record) (q : QueryRecord) :
  QueryRecord_init r = inr q -> built_from r q.
Proof.
  unfold QueryRecord_init, built_from.
  destruct r as [a b c d e f g h tag other]; simpl.
  destruct other; [|discriminate].
  destruct a, b, c, d, e, f, g, h; simpl; try discriminate.
  intros H. injection H as <-. simpl. repeat split; reflexivity.
Qed.

Lemma build_records_built_from (records : list raw_record) :
  forall qs, build_records records = inr qs -> Forall2 built_from records qs.
Proof.
  induction records as [|r rest IH]; simpl; intros qs H.
  - injection H as <-. constructor.
  - destruct (QueryRecord_init r) as [exc|q] eqn:Hq; simpl in H; [discriminate|].
    destruct (build_records rest) as [exc|qs'] eqn:Hrest; simpl in H; [discriminate|].
    injection H as <-. constructor; [now apply init_built_from | now apply IH].
Qed.

(** X16: a load of records that are all well formed returns their number
    and replaces the batch by them: one record per raw record, in order,
    with every field as the raw record gives it and the tag empty where
    there is none; what was loaded before has no part in the new batch, and
    the budgets and the price stay as they were. *)
Theorem load_replaces_batch (e e' : CostEngine) (records : list raw_record)
    (Hwf : forallb well_formed records = true) :
  value (load records e) = inr (List.length records)
  /\ Forall2 built_from records (queries (engine_after (load records e)))
  /\ queries (engine_after (load records e)) = queries (engine_after (load records e'))
  /\ budgets (engine_after (load records e)) = budgets e
  /\ credit_price (engine_after (load records e)) = credit_price e.
Proof.
  destruct (EngineFacts.load_well_formed records e Hwf) as (qs & Hqs & Hrun).
  destruct (EngineFacts.load_well_formed records e' Hwf) as (qs' & Hqs' & Hrun').
  rewrite Hqs in Hqs'. injection Hqs' as <-.
  rewrite Hrun, Hrun'. simpl. repeat split.
  now apply build_records_built_from.
Qed.

Lemma load_replaces_batch_witness :
  value (load Sample.SAMPLE Sample.priced_two) = inr 4%nat
  /\ Forall2 built_from Sample.SAMPLE
              (queries (engine_after (load Sample.SAMPLE Sample.priced_two)))
  /\ queries (engine_after (load Sample.SAMPLE Sample.priced_two))
     = queries (engine_after (load Sample.SAMPLE Sample.budgeted))
  /\ budgets (engine_after (load Sample.SAMPLE Sample.priced_two)) = []
  /\ credit_price (engine_after (load Sample.SAMPLE Sample.priced_two)) = 2.
Proof.
  apply (load_replaces_batch Sample.priced_two Sample.budgeted Sample.SAMPLE).
  reflexivity.
Defined.

(** *** The handlers *)

Lemma dict_set_absent {V : Type} (d : list (string * V)) (k : string) (v : V) :
  ~ In k (map fst d) -> dict_set d k v = (d ++ [(k, v)])%list.
Proof.
  induction d as [|[k' v'] d IH]; simpl; intros H; [reflexivity|].
  destruct (String.eqb k' k) eqn:Hk.
  - apply String.eqb_eq in Hk. tauto.
  - f_equal. apply IH. tauto.
Qed.

Lemma dict_build {V : Type} (bs : list (string * V)) :
  forall d : list (string * V),
    NoDup (map fst (d ++ bs)) ->
    fold_left (fun d entry => dict_set d (fst entry) (snd entry)) bs d
    = (d ++ bs)%list.
Proof.
  induction bs as [|[k v] bs IH]; intros d Hnd; simpl.
  - now rewrite app_nil_r.
  - rewrite dict_set_absent.
    + rewrite IH; rewrite <- app_assoc; [reflexivity | exact Hnd].
    + rewrite map_app in Hnd. simpl in Hnd.
      apply NoDup_remove_2 in Hnd. intros Hin. apply Hnd.
      apply in_or_app. now left.
Qed.

Lemma set_budgets_fold (bs : list (string * Q)) :
  forall engine : CostEngine,
    fold_left (fun engine entry =>
                 engine_after (set_budget (fst entry) (snd entry) engine))
              bs engine
    = {| credit_price := credit_price engine;
         queries := queries engine;
         budgets := fold_left (fun d entry => dict_set d (fst entry) (snd entry))
                              bs (budgets engine) |}.
Proof.
  induction bs as [|[k v] bs IH]; intros engine; simpl.
  - now destruct engine.
  - rewrite IH. reflexivity.
Qed.

(** The engine [_build_engine] returns. *)
Lemma build_engine_built (req : AnalyzeRequest)
    (Hwf : forallb well_formed (req_queries req) = true)
    (Hkeys : NoDup (map fst (req_budgets req))) :
  exists qs,
    build_records (req_queries req) = inr qs
    /\ _build_engine req =
       Ok {| credit_price := req_credit_price req;
             queries := qs;
             budgets := req_budgets req |}.
Proof.
  destruct (EngineFacts.load_well_formed (req_queries req)
              (CostEngine_init (req_credit_price req)) Hwf) as (qs & Hqs & Hrun).
  exists qs. split; [exact Hqs|].
  unfold _build_engine. rewrite Hrun, set_budgets_fold. simpl.
  now rewrite (dict_build (req_budgets req) []).
Qed.

(** X17: from a request whose records are all well formed and whose budget
    keys are distinct, [_build_engine] makes an engine with the request's
    price, the records of the request as its batch, and the request's
    budgets, in their order. *)
Theorem build_engine_state (req : AnalyzeRequest)
    (Hwf : forallb well_formed (req_queries req) = true)
    (Hkeys : NoDup (map fst (req_budgets req))) :
  exists qs,
    build_records (req_queries req) = inr qs
    /\ _build_engine req =
       Ok {| credit_price := req_credit_price req;
             queries := qs;
             budgets := req_budgets req |}.
Proof.
  now apply build_engine_built.
Qed.

Lemma build_engine_state_witness :
  exists qs,
    build_records Sample.SAMPLE = inr qs
    /\ _build_engine (Sample.request Sample.SAMPLE) =
       Ok {| credit_price := 3; queries := qs; budgets := [] |}.
Proof.
  apply (build_engine_state (Sample.request Sample.SAMPLE)).
  - reflexivity.
  - constructor.
Defined.

Lemma build_engine_answers (req : AnalyzeRequest) :
  (exists engine, _build_engine req = Ok engine)
  \/ (exists exc, _build_engine req =
                  Raised {| status_code := 400; http_detail := Invalid_query_data exc |}).
Proof.
  destruct (forallb well_formed (req_queries req)) eqn:Hwf.
  - left. now apply ApiFacts.build_engine_well_formed.
  - right. now apply ApiFacts.build_engine_malformed.
Qed.

Lemma then_answered {A B : Type} (req : AnalyzeRequest) (f : CostEngine -> outcome B) :
  (forall engine, answered (f engine)) ->
  answered (then_ (_build_engine req) f).
Proof.
  intros Hf. destruct (build_engine_answers req) as [[engine ->]|[exc ->]]; simpl.
  - apply Hf.
  - reflexivity.
Qed.

Lemma anomalies_raised (mean stdev : list Q -> exn + Q) (z : Q) (e : CostEngine)
    (exc : exn) :
  value (anomalies mean stdev z e) = inl exc ->
  mean (map cost_usd (queries e)) = inl exc
  \/ stdev (map cost_usd (queries e)) = inl exc.
Proof.
  rewrite AnalysisFacts.anomalies_run. unfold value. cbn [fst].
  destruct (List.length (queries e) <? 3)%nat; [discriminate|].
  destruct (mean _) as [exc0|mu]; [intros H; injection H as <-; now left|].
  destruct (stdev _) as [exc0|sd]; [intros H; injection H as <-; now right|].
  destruct (Qeq_bool sd 0); discriminate.
Qed.

Lemma uncaught_then {B : Type} (req : AnalyzeRequest) (f : CostEngine -> outcome B)
    (exc : exn) :
  then_ (_build_engine req) f = Uncaught exc ->
  exists engine, _build_engine req = Ok engine /\ f engine = Uncaught exc.
Proof.
  destruct (build_engine_answers req) as [[engine Hb]|[exc0 Hb]]; rewrite Hb; simpl.
  - intros H. now exists engine.
  - discriminate.
Qed.

(** X18: [breakdown] and [budget_check] answer every request either with a
    body or with a 400.  So do [analyze] and [detect_anomalies] unless
    [statistics.mean] or [statistics.stdev] raises on the costs of the
    loaded batch: that exception is the only one they can end with, and
    nothing in the handlers catches it. *)
Theorem handlers_answer (mean stdev : list Q -> exn + Q) (dimension : string)
    (req : AnalyzeRequest) :
  answered (Api.breakdown dimension req)
  /\ answered (budget_check req)
  /\ (forall exc, analyze mean stdev req = Uncaught exc ->
        exists engine,
          _build_engine req = Ok engine
          /\ (mean (map cost_usd (queries engine)) = inl exc
              \/ stdev (map cost_usd (queries engine)) = inl exc))
  /\ (forall exc, detect_anomalies mean stdev req = Uncaught exc ->
        exists engine,
          _build_engine req = Ok engine
          /\ (mean (map cost_usd (queries engine)) = inl exc
              \/ stdev (map cost_usd (queries engine)) = inl exc))
  /\ (forall engine exc,
        _build_engine req = Ok engine ->
        stdev (map cost_usd (queries engine)) = inl exc ->
        (exists mu, mean (map cost_usd (queries engine)) = inr mu) ->
        (3 <= List.length (queries engine))%nat ->
        analyze mean stdev req = Uncaught exc
        /\ detect_anomalies mean stdev req = Uncaught exc).
Proof.
  split; [|split; [|split; [|split]]].
  - unfold Api.breakdown. destruct (is_valid_dim dimension); cbn [negb]; [|reflexivity].
    apply (then_answered (A := unit)). intros engine.
    unfold call. now rewrite EngineFacts.breakdown_run.
  - unfold budget_check. destruct (req_budgets req); [reflexivity|].
    apply (then_answered (A := unit)). intros engine.
    unfold call. now rewrite EngineFacts.budget_alerts_run.
  - intros exc H. unfold analyze in H.
    apply uncaught_then in H as (engine & Hb & H).
    exists engine. split; [exact Hb|].
    unfold call in H.
    destruct (summary_value mean stdev engine) as (? & ? & ? & _ & _ & _ & Hs).
    rewrite Hs in H.
    destruct (value (anomalies mean stdev default_z_thresh engine)) as [exc0|anoms] eqn:Han;
      [|discriminate].
    injection H as <-. now apply (anomalies_raised mean stdev default_z_thresh).
  - intros exc H. unfold detect_anomalies in H.
    apply uncaught_then in H as (engine & Hb & H).
    exists engine. split; [exact Hb|].
    unfold call in H.
    destruct (value (anomalies mean stdev (req_z_threshold req) engine)) as [exc0|anoms] eqn:Han;
      [|discriminate].
    injection H as <-. now apply (anomalies_raised mean stdev (req_z_threshold req)).
  - intros engine exc Hb Hsd [mu Hmu] Hlen.
    assert (Hraise : forall z, value (anomalies mean stdev z engine) = inl exc).
    { intros z. rewrite AnalysisFacts.anomalies_run. unfold value. cbn [fst].
      apply Nat.ltb_ge in Hlen. now rewrite Hlen, Hmu, Hsd. }
    unfold analyze, detect_anomalies. rewrite Hb. simpl. unfold call.
    destruct (summary_value mean stdev engine) as (? & ? & ? & _ & _ & _ & Hs).
    rewrite Hs, !Hraise. split; reflexivity.
Qed.

Lemma handlers_answer_witness :
  analyze Sample.mean Sample.stdev_raising (Sample.request Sample.SAMPLE)
  = Uncaught (AttributeError "'float' object has no attribute 'numerator'")
  /\ detect_anomalies Sample.mean Sample.stdev_raising (Sample.request Sample.SAMPLE)
     = Uncaught (AttributeError "'float' object has no attribute 'numerator'").
Proof.
  destruct (ApiFacts.build_engine_well_formed (Sample.request Sample.SAMPLE) eq_refl)
    as [engine Hb].
  pose proof Hb as Hq. vm_compute in Hq. injection Hq as Hq.
  apply (proj2 (proj2 (proj2 (proj2
           (handlers_answer Sample.mean Sample.stdev_raising "team"
              (Sample.request Sample.SAMPLE))))) engine).
  - exact Hb.
  - reflexivity.
  - subst engine. eexists. vm_compute. reflexivity.
  - subst engine. simpl. lia.
Defined.

(** X19: [budget_check] answers a request without budgets with a 400,
    whatever else it carries; a request with budgets (distinct keys) and
    well-formed records gets the alerts of the engine built from it. *)
Theorem budget_check_gate (req : AnalyzeRequest) :
  (req_budgets req = [] ->
   budget_check req =
   Raised {| status_code := 400; http_detail := No_budgets_provided |})
  /\ (req_budgets req <> [] ->
      forallb well_formed (req_queries req) = true ->
      NoDup (map fst (req_budgets req)) ->
      exists qs alerts,
        build_records (req_queries req) = inr qs
        /\ value (budget_alerts {| credit_price := req_credit_price req;
                                   queries := qs;
                                   budgets := req_budgets req |}) = inr alerts
        /\ budget_check req = Ok alerts).
Proof.
  unfold budget_check. split.
  - intros ->. reflexivity.
  - intros Hne Hwf Hkeys.
    destruct (build_engine_built req Hwf Hkeys) as (qs & Hqs & Hengine).
    exists qs. eexists. split; [exact Hqs|].
    rewrite EngineFacts.budget_alerts_run. split; [reflexivity|].
    destruct (req_budgets req) eqn:Hbs; [congruence|].
    rewrite Hengine. simpl. unfold call.
    rewrite EngineFacts.budget_alerts_run. reflexivity.
Qed.

Lemma budget_check_gate_witness :
  budget_check (Sample.request [Sample.missing_field]) =
  Raised {| status_code := 400; http_detail := No_budgets_provided |}.
Proof.
  apply (proj1 (budget_check_gate (Sample.request [Sample.missing_field]))).
  reflexivity.
Defined.

End ServiceFacts.

(** ** Alerts per team *)

Module AlertFacts.

Import Warecost Spec.

Local Open Scope Q_scope.

Lemma NoDup_keys_filter {V : Type} (p : string * V -> bool) (d : list (string * V)) :
  NoDup (map fst d) -> NoDup (map fst (filter p d)).
Proof.
  induction d as [|[k v] d IH]; simpl; intros Hnd; [constructor|].
  inversion Hnd as [|? ? Hnotin Hrest]; subst.
  destruct (p (k, v)); simpl; [|now apply IH].
  constructor; [|now apply IH].
  intros Hin. apply Hnotin.
  apply in_map_iff in Hin as (x & Hx & Hin). apply filter_In in Hin as [Hin _].
  apply in_map_iff. now exists x.
Qed.

(** X22: alerts come in the order of the budgets, and when no team has two
    budget entries (as [set_budget] keeps it) no team has two alerts. *)
Theorem one_alert_per_team (e : CostEngine) :
  exists alerts keep,
    value (budget_alerts e) = inr alerts
    /\ map (fun a => (al_team a, al_budget a)) alerts = filter keep (budgets e)
    /\ (List.length alerts <= List.length (budgets e))%nat
    /\ (NoDup (map fst (budgets e)) -> NoDup (map al_team alerts)).
Proof.
  rewrite EngineFacts.budget_alerts_run, AnalysisFacts.check_budget_loop.
  set (rows := map _ (Py.sorted _ _)).
  set (keep := fun entry : string * Q => Qle_bool 80 (spend_pct rows entry)).
  exists (map (alert_of rows) (filter keep (budgets e))), keep.
  split; [reflexivity|].
  assert (Hpairs : map (fun a => (al_team a, al_budget a))
                       (map (alert_of rows) (filter keep (budgets e)))
                   = filter keep (budgets e)).
  { rewrite map_map. simpl. rewrite <- (map_id (filter keep (budgets e))) at 2.
    apply map_ext. now intros [t l]. }
  split; [exact Hpairs|]. split.
  - rewrite length_map. clear. induction (budgets e) as [|x l IH]; simpl; [lia|].
    destruct (keep x); simpl; lia.
  - intros Hnd. rewrite map_map. simpl.
    now apply (NoDup_keys_filter keep).
Qed.

Lemma one_alert_per_team_witness :
  exists alerts,
    value (budget_alerts Sample.budgeted) = inr alerts
    /\ NoDup (map al_team alerts).
Proof.
  destruct (one_alert_per_team Sample.budgeted) as (alerts & keep & Hal & _ & _ & Hnd).
  exists alerts. split; [exact Hal|].
  apply Hnd. simpl. constructor; [intros [] | constructor].
Defined.

End AlertFacts.
